(** * DAGNN (Deep Adaptive Graph Neural Network), Keras/TensorFlow front end

    A shallow embedding of
    [graphgallery/nn/models/semisupervised/tf_models/dagnn.py].

    The Python methods of class [DAGNN] are written as computations in a
    state-and-exception monad over the instance dictionary of [self].
    Names that the module binds at import time are looked up in an explicit
    module namespace, so that a reference to a name nobody binds raises
    [NameError] exactly as the interpreter does.

    Collaborators of the class that live in other files of the package (the
    base class [SemiSupervisedModel], [normalize_adj], [astensors], ...) are
    parameters of the development, and so are the constructors of Keras,
    which may reject what they are given.  The two numeric layers the model
    is assembled from, [PropConvolution] and [Gather], are modelled from the
    written specification.  Their algebra is stated over the real numbers;
    what rounding changes, the saturation of the logistic gate, is stated
    over binary64 floating-point numbers. *)

From Stdlib Require Import ZArith List String Reals Lra Lia Floats.
From stdpp Require Import gmap strings.

Open Scope string_scope.
Open Scope list_scope.
Set Warnings "-register-all".

(** ** Python runtime *)

Module Py.

(** Dense numeric data: a vector is a row, a matrix a list of rows. *)
Abbreviation vec := (list R).
Abbreviation matrix := (list (list R)).

(** Exceptions.  [ConfigurationError], [ShapeError] and [IndexError] are the
    typed errors of the written specification; [ExternalError] stands for
    whatever a collaborator raises. *)
Inductive exn :=
| NameError (name : string)
| UnboundLocalError (name : string)
| AttributeError (attr : string)
| KeyError (key : string)
| TypeError (what : string)
| ValueError (what : string)
| ConfigurationError
| ShapeError
| IndexError
| ExternalError (what : string).

Inductive result (A : Type) :=
| Ok (a : A)
| Raise (e : exn).
Arguments Ok {A} a.
Arguments Raise {A} e.

(** Layers of the Keras graph that [build] assembles, with the weights each
    layer owns. *)
Inductive layer :=
| Dense (units : Z) (use_bias : bool) (activation : string) (l2 : float)
        (kernel : matrix) (bias : vec)
| Dropout (rate : float)
| PropConvolution (K : Z) (use_bias : bool) (activation : string) (l2 : float)
                  (kernel : vec) (bias : R)
| Gather.

(** [Model(inputs=[x, adj, index], outputs=h)] after [compile]. *)
Record keras_model := KerasModel {
  n_inputs : Z;               (* width of the attribute matrix input *)
  layers : list layer;        (* the chain from [x] to the output *)
  learning_rate : float       (* Adam(lr=lr) *)
}.

(** Python objects that flow through the methods of the class. *)
Inductive value :=
| VNone
| VBool (b : bool)
| VInt (n : Z)
| VFloat (f : float)
| VStr (s : string)
| VList (vs : list value)
| VDict (items : list (string * value))
| VMatrix (m : matrix)
| VIndex (ix : list Z)
| VName (qualname : string)     (* the object a module-level name is bound to *)
| VModel (m : keras_model)
| VObject (cls : string) (fields : list value).

(** Truth value testing (the [if obj:] protocol): [None], [False], numeric
    zero of any type and empty containers are false. *)
Definition truthy (v : value) : bool :=
  match v with
  | VNone => false
  | VBool b => b
  | VInt n => negb (n =? 0)%Z
  | VFloat f => negb (PrimFloat.eqb f 0%float)
  | VStr s => negb (String.eqb s "")
  | VList vs => match vs with [] => false | _ => true end
  | VDict items => match items with [] => false | _ => true end
  | VIndex ix => match ix with [] => false | _ => true end
  | _ => true
  end.

(** What happened during a call, in order (most recent event last). *)
Inductive event :=
| ECall (callee : string) (args : list value)   (* call into another file *)
| ENew (cls : string).                          (* a Keras object is built *)

(** The state a method runs in: the instance dictionary of [self] and the
    log of events. *)
Record world := World {
  self : gmap string value;
  trace : list event
}.

Definition M (A : Type) : Type := world → result A * world.

Definition ret {A} (a : A) : M A := λ w, (Ok a, w).
Definition raise {A} (e : exn) : M A := λ w, (Raise e, w).
Definition bind {A B} (c : M A) (k : A → M B) : M B :=
  λ w, match c w with
       | (Ok a, w') => k a w'
       | (Raise e, w') => (Raise e, w')
       end.

Notation "'let!' x ':=' c 'in' k" := (bind c (λ x, k))
  (at level 10, x pattern, c at level 100, k at level 200).

Definition log (e : event) : M unit :=
  λ w, (Ok tt, World (self w) (trace w ++ [e])).

(** [self.attr] *)
Definition getattr (attr : string) : M value :=
  λ w, match self w !! attr with
       | Some v => (Ok v, w)
       | None => (Raise (AttributeError attr), w)
       end.

(** [self.attr = v] *)
Definition setattr (attr : string) (v : value) : M unit :=
  λ w, (Ok tt, World (<[attr := v]> (self w)) (trace w)).

(** The names of the builtins module (CPython 3). *)
Definition builtins : list string :=
  [ "ArithmeticError"; "AssertionError"; "AttributeError"; "BaseException";
    "BaseExceptionGroup"; "BlockingIOError"; "BrokenPipeError";
    "BufferError"; "BytesWarning"; "ChildProcessError";
    "ConnectionAbortedError"; "ConnectionError"; "ConnectionRefusedError";
    "ConnectionResetError"; "DeprecationWarning"; "EOFError"; "Ellipsis";
    "EncodingWarning"; "EnvironmentError"; "Exception"; "ExceptionGroup";
    "False"; "FileExistsError"; "FileNotFoundError"; "FloatingPointError";
    "FutureWarning"; "GeneratorExit"; "IOError"; "ImportError";
    "ImportWarning"; "IndentationError"; "IndexError"; "InterruptedError";
    "IsADirectoryError"; "KeyError"; "KeyboardInterrupt"; "LookupError";
    "MemoryError"; "ModuleNotFoundError"; "NameError"; "None";
    "NotADirectoryError"; "NotImplemented"; "NotImplementedError"; "OSError";
    "OverflowError"; "PendingDeprecationWarning"; "PermissionError";
    "ProcessLookupError"; "RecursionError"; "ReferenceError";
    "ResourceWarning"; "RuntimeError"; "RuntimeWarning";
    "StopAsyncIteration"; "StopIteration"; "SyntaxError"; "SyntaxWarning";
    "SystemError"; "SystemExit"; "TabError"; "TimeoutError"; "True";
    "TypeError"; "UnboundLocalError"; "UnicodeDecodeError";
    "UnicodeEncodeError"; "UnicodeError"; "UnicodeTranslateError";
    "UnicodeWarning"; "UserWarning"; "ValueError"; "Warning";
    "ZeroDivisionError"; "__build_class__"; "__debug__"; "__doc__";
    "__import__"; "__loader__"; "__name__"; "__package__"; "__spec__"; "abs";
    "aiter"; "all"; "anext"; "any"; "ascii"; "bin"; "bool"; "breakpoint";
    "bytearray"; "bytes"; "callable"; "chr"; "classmethod"; "compile";
    "complex"; "copyright"; "credits"; "delattr"; "dict"; "dir"; "divmod";
    "enumerate"; "eval"; "exec"; "exit"; "filter"; "float"; "format";
    "frozenset"; "getattr"; "globals"; "hasattr"; "hash"; "help"; "hex";
    "id"; "input"; "int"; "isinstance"; "issubclass"; "iter"; "len";
    "license"; "list"; "locals"; "map"; "max"; "memoryview"; "min"; "next";
    "object"; "oct"; "open"; "ord"; "pow"; "print"; "property"; "quit";
    "range"; "repr"; "reversed"; "round"; "set"; "setattr"; "slice";
    "sorted"; "staticmethod"; "str"; "sum"; "super"; "tuple"; "type"; "vars";
    "zip" ].

(** The namespace of the module after its import statements and its class
    statement have run, with the dunder names every module has. *)
Definition module_globals : gmap string value :=
  list_to_map
    [ ("__name__", VStr "graphgallery.nn.models.semisupervised.tf_models.dagnn");
      ("__doc__", VNone);
      ("__package__", VStr "graphgallery.nn.models.semisupervised.tf_models");
      ("__loader__", VName "__loader__");
      ("__spec__", VName "__spec__");
      ("__file__", VStr "dagnn.py");
      ("__cached__", VStr "dagnn.pyc");
      ("__builtins__", VName "builtins");
      ("tf", VName "tensorflow");
      ("Model", VName "tensorflow.keras.Model");
      ("Input", VName "tensorflow.keras.Input");
      ("Dropout", VName "tensorflow.keras.layers.Dropout");
      ("Dense", VName "tensorflow.keras.layers.Dense");
      ("Adam", VName "tensorflow.keras.optimizers.Adam");
      ("regularizers", VName "tensorflow.keras.regularizers");
      ("SparseCategoricalCrossentropy",
       VName "tensorflow.keras.losses.SparseCategoricalCrossentropy");
      ("PropConvolution", VName "graphgallery.nn.layers.PropConvolution");
      ("Gather", VName "graphgallery.nn.layers.Gather");
      ("SemiSupervisedModel", VName "graphgallery.nn.models.SemiSupervisedModel");
      ("FullBatchNodeSequence", VName "graphgallery.sequence.FullBatchNodeSequence");
      ("EqualVarLength", VName "graphgallery.utils.shape.EqualVarLength");
      ("astensors", VName "graphgallery.astensors");
      ("asintarr", VName "graphgallery.asintarr");
      ("normalize_x", VName "graphgallery.normalize_x");
      ("normalize_adj", VName "graphgallery.normalize_adj");
      ("Bunch", VName "graphgallery.Bunch");
      ("DAGNN", VName "DAGNN") ].

(** Reading a name that the function never assigns: the module namespace
    first, the builtins next, [NameError] otherwise. *)
Definition load_global (name : string) : M value :=
  match module_globals !! name with
  | Some v => ret v
  | None =>
      if bool_decide (name ∈ builtins)
      then ret (VName ("builtins." ++ name)%string)
      else raise (NameError name)
  end.

End Py.

(** ** Numeric layers *)

Module Layers.
Import Py.
Open Scope R_scope.

Definition vadd (u v : vec) : vec := zip_with Rplus u v.
Definition vscale (c : R) (v : vec) : vec := map (Rmult c) v.
Definition zeros (d : nat) : vec := repeat 0 d.
Definition dot (u v : vec) : R := fold_right Rplus 0 (zip_with Rmult u v).

(** Number of columns, read off the first row. *)
Definition width (H : matrix) : nat :=
  match H with
  | [] => O
  | r :: _ => length r
  end.

(** [lincomb d cs rows] is the vector [Σ_k cs[k] · rows[k]] of length [d]. *)
Definition lincomb (d : nat) (cs : vec) (rows : matrix) : vec :=
  fold_right (λ '(c, h) acc, vadd (vscale c h) acc) (zeros d) (zip cs rows).

(** The product [A · H], one output row per row of [A]. *)
Definition matmul (A H : matrix) : matrix :=
  map (λ a, lincomb (width H) a H) A.

(** The logistic function in exact arithmetic. *)
Definition sigmoid (x : R) : R := / (1 + exp (- x)).

(** The logistic function as the tensors compute it, in floating-point
    arithmetic (binary64 here): [1 / (1 + exp(-x))] with every operation
    rounded.  [fexp] is the exponential of the tensor library. *)
Definition sigmoid_float (fexp : float → float) (x : float) : float :=
  (1 / (1 + fexp (- x)))%float.

(** The scalar product in floating-point arithmetic. *)
Definition dot_float (u v : list float) : float :=
  fold_right PrimFloat.add 0%float (zip_with PrimFloat.mul u v).

(** Keras resolves an activation by name ([activations.get]). *)
Definition activation_fn (name : string) : option (R → R) :=
  if String.eqb name "sigmoid" then Some sigmoid
  else if String.eqb name "relu" then Some (Rmax 0)
  else if String.eqb name "tanh" then Some tanh
  else if String.eqb name "linear" then Some (λ x, x)
  else None.

(** [Dense.call]: [activation(h · kernel + bias)], the bias only when the
    layer was built with [use_bias]. *)
Definition Dense_call (act : R → R) (use_bias : bool)
    (kernel : matrix) (bias : vec) (h : matrix) : matrix :=
  map (λ row,
         let z := lincomb (width kernel) row kernel in
         map act (if use_bias then vadd z bias else z)) h.

(** Modelled from the spec: the diffusion steps of the Adaptive Propagation
    Operator ([PropConvolution.call] is defined in [graphgallery.nn.layers],
    outside this file).  [propagations K A H0] is the list
    [H_0; H_1; ...; H_K] with [H_0 = H0] and [H_t = A · H_(t-1)]. *)
Fixpoint propagations (K : nat) (A H : matrix) : list matrix :=
  match K with
  | O => [H]
  | S k => H :: propagations k A (matmul A H)
  end.

(** Modelled from the spec: stacking the [K+1] representations into a
    tensor of shape (node, K+1, d); entry [n] lists the rows of node [n]. *)
Definition stack (Hs : list matrix) (n : nat) : list (list vec) :=
  map (λ i, map (λ H, nth i H []) Hs) (seq 0 n).

(** Modelled from the spec: the retention gate [g = σ(W_g · h + b)] of one
    node at one step, in exact arithmetic; the bias takes part only if the
    bias flag is set. *)
Definition gate (act : R → R) (use_bias : bool) (W : vec) (b : R) (h : vec) : R :=
  act (if use_bias then dot W h + b else dot W h).

(** Modelled from the spec: the same gate with the logistic function, as the
    tensors compute it in floating-point arithmetic. *)
Definition gate_float (fexp : float → float) (use_bias : bool)
    (W : list float) (b : float) (h : list float) : float :=
  sigmoid_float fexp
    (if use_bias then (dot_float W h + b)%float else dot_float W h).

(** Modelled from the spec: the (node, K+1) tensor of gates. *)
Definition retain_scores (act : R → R) (use_bias : bool) (W : vec) (b : R)
    (stacked : list (list vec)) : list (list R) :=
  map (map (gate act use_bias W b)) stacked.

(** Modelled from the spec: the gate tensor the operator computes for [K]
    diffusion steps, one list of [K+1] gates per node. *)
Definition gates (K : nat) (act : R → R) (use_bias : bool) (W : vec) (b : R)
    (H0 A : matrix) : list (list R) :=
  retain_scores act use_bias W b (stack (propagations K A H0) (length H0)).

(** Modelled from the spec: [A] must be square with as many rows as [H0]. *)
Definition well_formed (A H0 : matrix) : bool :=
  (length A =? length H0)%nat && forallb (λ r, (length r =? length A)%nat) A.

(** Modelled from the spec: the Adaptive Propagation Operator
    ([PropConvolution.call], defined in [graphgallery.nn.layers]), steps 1
    to 5 of its algorithm.  The step count bounds the loop of step 2
    ([t = 1..K]), which does not run when [K] is zero or negative; operands
    whose dimensions do not match cannot be multiplied and are rejected
    with [ShapeError] before any computation; otherwise the output row of
    node [n] is [Σ_(t=0..K) g_t[n] · H_t[n]]. *)
Definition PropConvolution_call (K : Z) (act : R → R) (use_bias : bool)
    (W : vec) (b : R) (H0 A : matrix) : result matrix :=
  if negb (well_formed A H0) then Raise ShapeError
  else
    let stacked := stack (propagations (Z.to_nat K) A H0) (length H0) in
    let scores := gates (Z.to_nat K) act use_bias W b H0 A in
    Ok (zip_with (lincomb (width H0)) scores stacked).

(** Modelled from the spec: Index Gather ([Gather.call], defined in
    [graphgallery.nn.layers]): the rows of the selected nodes in the given
    order, [IndexError] for an index outside [0, node_count). *)
Fixpoint Gather_call (H : matrix) (index : list Z) : result matrix :=
  match index with
  | [] => Ok []
  | i :: rest =>
      if ((0 <=? i) && (i <? Z.of_nat (length H)))%Z
      then match H !! Z.to_nat i, Gather_call H rest with
           | Some row, Ok rows => Ok (row :: rows)
           | Some _, Raise e => Raise e
           | None, _ => Raise IndexError
           end
      else Raise IndexError
  end.

(** [is_matrix n d M]: [M] has [n] rows of [d] entries each. *)
Definition is_matrix (n d : nat) (M : matrix) : Prop :=
  length M = n ∧ Forall (λ r, length r = d) M.

(** The identity operator on two nodes. *)
Definition eye2 : matrix := [[1; 0]; [0; 1]].

(** The forward pass of the layer chain at inference: [Dropout] is the
    identity when no training is going on. *)
Fixpoint forward (ls : list layer) (adj : matrix) (index : list Z)
    (h : matrix) : result matrix :=
  match ls with
  | [] => Ok h
  | Dense _ use_bias a _ kernel bias :: ls' =>
      match activation_fn a with
      | Some act => forward ls' adj index (Dense_call act use_bias kernel bias h)
      | None => Raise (ValueError a)
      end
  | Dropout _ :: ls' => forward ls' adj index h
  | PropConvolution K use_bias a _ W b :: ls' =>
      match activation_fn a with
      | Some act =>
          match PropConvolution_call K act use_bias W b h adj with
          | Ok h' => forward ls' adj index h'
          | Raise e => Raise e
          end
      | None => Raise (ValueError a)
      end
  | Gather :: ls' =>
      match Gather_call h index with
      | Ok h' => forward ls' adj index h'
      | Raise e => Raise e
      end
  end.

End Layers.

(** ** The class [DAGNN] *)

Module DAGNN.
Import Py.

Section Methods.

(** Functions and classes of other files of the package
    ([normalize_adj], [normalize_x], [astensors], [asintarr], [Bunch], ...),
    called with positional and keyword arguments. *)
Variable ext_fun : string → list value → list (string * value) → result value.

(** Methods of the base class [SemiSupervisedModel], which also read and
    update the instance dictionary of [self]. *)
Variable ext_method :
  string → list value → list (string * value) →
  gmap string value → result value * gmap string value.

(** The initial kernel Keras draws for the layer with the given position
    in the chain and the given shape. *)
Variable init_kernel : nat → Z → Z → matrix.

(** Calling an object [f] read from a name, with positional and keyword
    arguments. *)
Definition call (f : value) (args : list value)
    (kwargs : list (string * value)) : M value :=
  match f with
  | VName qualname =>
      let! _ := log (ECall qualname args) in
      λ w, (ext_fun qualname args kwargs, w)
  | _ => raise (TypeError "object is not callable")
  end.

(** A call of the method [meth] of the base class through [super()]. *)
Definition call_super (meth : string) (args : list value)
    (kwargs : list (string * value)) : M value :=
  let! _ := load_global "super" in
  let! _ := log (ECall ("SemiSupervisedModel." ++ meth)%string args) in
  λ w, let (r, d) := ext_method meth args kwargs (self w) in
       (r, World d (trace w)).

(** [a, b = v] *)
Definition unpack2 (v : value) : M (value * value) :=
  match v with
  | VList [a; b] => ret (a, b)
  | VList _ => raise (ValueError "unpack")
  | _ => raise (TypeError "cannot unpack non-iterable object")
  end.

(** [a, b, c, d = v] *)
Definition unpack4 (v : value) : M (value * value * value * value) :=
  match v with
  | VList [a; b; c; d] => ret (a, b, c, d)
  | VList _ => raise (ValueError "unpack")
  | _ => raise (TypeError "cannot unpack non-iterable object")
  end.

Definition as_int (v : value) : M Z :=
  match v with
  | VInt n => ret n
  | _ => raise (TypeError "an integer is required")
  end.

Fixpoint as_list {A} (conv : value → option A) (vs : list value) : option (list A) :=
  match vs with
  | [] => Some []
  | v :: vs' =>
      match conv v, as_list conv vs' with
      | Some a, Some l => Some (a :: l)
      | _, _ => None
      end
  end.

Definition as_list_of {A} (conv : value → option A) (v : value) : M (list A) :=
  match v with
  | VList vs =>
      match as_list conv vs with
      | Some l => ret l
      | None => raise (TypeError "list element")
      end
  | _ => raise (TypeError "a list is required")
  end.

Definition int_of (v : value) : option Z :=
  match v with VInt n => Some n | _ => None end.
Definition str_of (v : value) : option string :=
  match v with VStr s => Some s | _ => None end.
Definition float_of (v : value) : option float :=
  match v with VFloat f => Some f | _ => None end.

(** [d.pop(key)] on a dict: the entry is removed, [KeyError] if absent. *)
Fixpoint dict_pop (key : string) (items : list (string * value))
    : option (list (string * value)) :=
  match items with
  | [] => None
  | (k, v) :: rest =>
      if String.eqb k key then Some rest
      else match dict_pop key rest with
           | Some rest' => Some ((k, v) :: rest')
           | None => None
           end
  end.

(** [DAGNN.preprocess], lines 58-69. *)
Definition preprocess (adj x : value) : M unit :=
  let! _ := call_super "preprocess" [adj; x] [] in
  (* adj, x = self.adj, self.x *)
  let! adj := getattr "adj" in
  let! x := getattr "x" in
  (* if self.norm_adj: adj = normalize_adj(adj, self.norm_adj) *)
  let! norm_adj := getattr "norm_adj" in
  let! adj :=
    (if truthy norm_adj
     then let! f := load_global "normalize_adj" in
          let! rate := getattr "norm_adj" in
          call f [adj; rate] []
     else ret adj) in
  (* if self.norm_x: x = normalize_x(x, norm=self.norm_x) *)
  let! norm_x := getattr "norm_x" in
  let! x :=
    (if truthy norm_x
     then let! f := load_global "normalize_x" in
          let! norm := getattr "norm_x" in
          call f [x] [("norm", norm)]
     else ret x) in
  (* with tf.device(self.device): *)
  let! _ := load_global "tf" in
  let! device := getattr "device" in
  let! _ := log (ECall "tensorflow.device" [device]) in
  (* self.x_norm, self.adj_norm = astensors([x, adj]) *)
  let! f := load_global "astensors" in
  let! ts := call f [VList [x; adj]] [] in
  let! (x_norm, adj_norm) := unpack2 ts in
  let! _ := setattr "x_norm" x_norm in
  setattr "adj_norm" adj_norm.

(** [DAGNN.__init__], lines 22-56.  [adj] and [x] are not parameters of the
    function and are never assigned in it, so line 56 reads them as
    globals. *)
Definition __init__ (graph norm_adj norm_x K device seed name : value)
    (kwargs : list (string * value)) : M unit :=
  let! _ := call_super "__init__" [graph]
              ([("device", device); ("seed", seed); ("name", name)] ++ kwargs) in
  let! _ := setattr "norm_adj" norm_adj in
  let! _ := setattr "norm_x" norm_x in
  let! _ := setattr "K" K in
  (* self.preprocess(adj, x): the method is found on the class, then the
     arguments are evaluated from left to right *)
  let! adj := load_global "adj" in
  let! x := load_global "x" in
  preprocess adj x.

(** The items [zip] yields over the four configuration lists: the shortest
    list decides how many. *)
Fixpoint zip4 (hs : list Z) (acts : list string) (ds ls : list float)
    : list (Z * string * float * float) :=
  match hs, acts, ds, ls with
  | h :: hs', a :: acts', d :: ds', l :: ls' =>
      (h, a, d, l) :: zip4 hs' acts' ds' ls'
  | _, _, _, _ => []
  end.

(** A method of an object built by another file of the package, such as
    [Bunch.update]; the updated object is the result. *)
Definition call_method_of (qualname : string) (obj : value)
    (args : list value) : M value :=
  let! _ := log (ECall qualname (obj :: args)) in
  λ w, (ext_fun qualname (obj :: args) [], w).

(** The symbolic tensor that stands for the output of a layer while the
    graph is assembled; only its last dimension is kept.  [adj_input] and
    [index_input] are the inputs declared on lines 88 and 89. *)
Definition tensor (width : Z) : value := VObject "KerasTensor" [VInt width].
Definition adj_input : value := VObject "KerasTensor" [VNone; VNone].
Definition index_input : value := VObject "KerasTensor" [VNone].

(** [regularizers.l2(l2_norm)] *)
Definition l2_regularizer (l2_norm : float) : M value :=
  let! _ := load_global "regularizers" in
  call (VName "tensorflow.keras.regularizers.l2") [VFloat l2_norm] [].

(** A layer is constructed by [f] and applied to symbolic tensors, as in
    [Dense(...)(h)].  Both steps run in Keras, or in the layer files of the
    package, and either may raise: Keras rejects an activation name it does
    not know, a rate outside [0, 1], and so on. *)
Definition apply_new (cls : string) (f : value) (args : list value)
    (kwargs : list (string * value)) (inputs : list value) : M unit :=
  let! layer := call f args kwargs in
  let! _ := call_method_of "tensorflow.keras.layers.Layer.__call__" layer inputs in
  log (ENew cls).

(** Lines 92-94: one [Dense] and one [Dropout] per item; [pos] counts the
    layers that own weights and [width] is the last dimension of [h]. *)
Fixpoint encoder (use_bias : bool) (cfg : list (Z * string * float * float))
    (pos : nat) (width : Z) (h : list layer) : M (nat * Z * list layer) :=
  match cfg with
  | [] => ret (pos, width, h)
  | (hid, activation, dropout, l2_norm) :: cfg' =>
      (* h = Dense(hid, use_bias=use_bias, activation=activation,
                   kernel_regularizer=regularizers.l2(l2_norm))(h) *)
      let! f := load_global "Dense" in
      let! reg := l2_regularizer l2_norm in
      let! _ := apply_new "Dense" f [VInt hid]
                  [ ("use_bias", VBool use_bias);
                    ("activation", VStr activation);
                    ("kernel_regularizer", reg) ]
                  [tensor width] in
      let h := h ++ [Dense hid use_bias activation l2_norm
                       (init_kernel pos width hid)
                       (Layers.zeros (Z.to_nat hid))] in
      (* h = Dropout(dropout)(h) *)
      let! f := load_global "Dropout" in
      let! _ := apply_new "Dropout" f [VFloat dropout] [] [tensor hid] in
      let h := h ++ [Dropout dropout] in
      encoder use_bias cfg' (S pos) hid h
  end.

(** [DAGNN.build], lines 71-106. *)
Definition build (hiddens : list Z) (activations : list string)
    (dropouts l2_norms : list float) (lr : float) (use_bias : bool) : M unit :=
  (* local_paras = locals(); local_paras.pop('self') *)
  let! _ := load_global "locals" in
  let local_paras :=
    [ ("self", VName "self");
      ("hiddens", VList (map VInt hiddens));
      ("activations", VList (map VStr activations));
      ("dropouts", VList (map VFloat dropouts));
      ("l2_norms", VList (map VFloat l2_norms));
      ("lr", VFloat lr);
      ("use_bias", VBool use_bias) ] in
  let! local_paras :=
    (match dict_pop "self" local_paras with
     | Some d => ret d
     | None => raise (KeyError "self")
     end) in
  (* paras = Bunch with the entries of local_paras as keyword arguments *)
  let! f := load_global "Bunch" in
  let! paras := call f [] local_paras in
  (* hiddens, activations, dropouts, l2_norms = set_equal_in_length(...) *)
  let! f := load_global "set_equal_in_length" in
  let! r := call f [ VList (map VInt hiddens); VList (map VStr activations);
                     VList (map VFloat dropouts); VList (map VFloat l2_norms) ] [] in
  let! (vh, va, vd, vl) := unpack4 r in
  (* paras.update(Bunch(hiddens=..., activations=..., dropouts=..., l2_norms=...)) *)
  let! f := load_global "Bunch" in
  let! b := call f [] [ ("hiddens", vh); ("activations", va);
                        ("dropouts", vd); ("l2_norms", vl) ] in
  let! paras := call_method_of "graphgallery.Bunch.update" paras [b] in
  (* self.paras.update(paras); self.model_paras.update(paras) *)
  let! p := getattr "paras" in
  let! p := call_method_of "graphgallery.Bunch.update" p [paras] in
  let! _ := setattr "paras" p in
  let! p := getattr "model_paras" in
  let! p := call_method_of "graphgallery.Bunch.update" p [paras] in
  let! _ := setattr "model_paras" p in
  (* with tf.device(self.device): *)
  let! _ := load_global "tf" in
  let! device := getattr "device" in
  let! _ := log (ECall "tensorflow.device" [device]) in
  (* x = Input(...); adj = Input(...); index = Input(...) *)
  let! _ := load_global "Input" in
  let! n_attrs := getattr "n_attrs" in
  let! _ := getattr "floatx" in
  let! n_attrs := as_int n_attrs in
  let! _ := log (ENew "Input") in
  let! _ := load_global "Input" in
  let! _ := getattr "floatx" in
  let! _ := log (ENew "Input") in
  let! _ := load_global "Input" in
  let! _ := getattr "intx" in
  let! _ := log (ENew "Input") in
  (* for hid, activation, dropout, l2_norm in zip(...): *)
  let! _ := load_global "zip" in
  let! hiddens := as_list_of int_of vh in
  let! activations := as_list_of str_of va in
  let! dropouts := as_list_of float_of vd in
  let! l2_norms := as_list_of float_of vl in
  let cfg := zip4 hiddens activations dropouts l2_norms in
  let! (pos, width, h) := encoder use_bias cfg O n_attrs [] in
  (* h = Dense(self.n_classes, ..., activation=activation, ...)(h): the loop
     variables keep the values of the last iteration *)
  let! f := load_global "Dense" in
  let! n_classes := getattr "n_classes" in
  let! (activation, dropout, l2_norm) :=
    (match last cfg with
     | Some (_, a, d, l) => ret (a, d, l)
     | None => raise (UnboundLocalError "activation")
     end) in
  let! reg := l2_regularizer l2_norm in
  let! n_classes := as_int n_classes in
  let! _ := apply_new "Dense" f [VInt n_classes]
              [ ("use_bias", VBool use_bias);
                ("activation", VStr activation);
                ("kernel_regularizer", reg) ]
              [tensor width] in
  let h := h ++ [Dense n_classes use_bias activation l2_norm
                   (init_kernel pos width n_classes)
                   (Layers.zeros (Z.to_nat n_classes))] in
  (* h = Dropout(dropout)(h) *)
  let! f := load_global "Dropout" in
  let! _ := apply_new "Dropout" f [VFloat dropout] [] [tensor n_classes] in
  let h := h ++ [Dropout dropout] in
  (* h = PropConvolution(self.K, use_bias=use_bias, activation='sigmoid', ...)([h, adj]) *)
  let! f := load_global "PropConvolution" in
  let! K := getattr "K" in
  let! reg := l2_regularizer l2_norm in
  let! K := as_int K in
  let! _ := apply_new "PropConvolution" f [VInt K]
              [ ("use_bias", VBool use_bias);
                ("activation", VStr "sigmoid");
                ("kernel_regularizer", reg) ]
              [tensor n_classes; adj_input] in
  let h := h ++ [PropConvolution K use_bias "sigmoid" l2_norm
                   (map (λ r, hd 0%R r) (init_kernel (S pos) n_classes 1))
                   0%R] in
  (* h = Gather()([h, index]) *)
  let! f := load_global "Gather" in
  let! _ := apply_new "Gather" f [] [] [tensor n_classes; index_input] in
  let h := h ++ [Gather] in
  (* model = Model(inputs=[x, adj, index], outputs=h) *)
  let! f := load_global "Model" in
  let! model := call f []
                  [ ("inputs", VList [tensor n_attrs; adj_input; index_input]);
                    ("outputs", tensor n_classes) ] in
  let! _ := log (ENew "Model") in
  (* model.compile(loss=SparseCategoricalCrossentropy(from_logits=True),
                   optimizer=Adam(lr=lr), metrics=['accuracy']) *)
  let! f := load_global "SparseCategoricalCrossentropy" in
  let! loss := call f [] [("from_logits", VBool true)] in
  let! _ := log (ENew "SparseCategoricalCrossentropy") in
  let! f := load_global "Adam" in
  let! optimizer := call f [] [("lr", VFloat lr)] in
  let! _ := log (ENew "Adam") in
  let! _ := call_method_of "tensorflow.keras.Model.compile" model
              [loss; optimizer; VList [VStr "accuracy"]] in
  (* self.model = model *)
  setattr "model" (VModel (KerasModel n_attrs h lr)).

(** [self.model.predict_on_batch]: the attribute exists on a Keras model
    only. *)
Definition predict_on_batch_of (model : value) : M keras_model :=
  match model with
  | VModel m => ret m
  | _ => raise (AttributeError "predict_on_batch")
  end.

(** [model.predict_on_batch([x, adj, index])]: the forward pass at
    inference. *)
Definition predict_on_batch (m : keras_model) (x adj index : value) : M value :=
  match x, adj, index with
  | VMatrix x, VMatrix adj, VIndex index =>
      match Layers.forward (layers m) adj index x with
      | Ok logit => ret (VMatrix logit)
      | Raise e => raise e
      end
  | _, _, _ => raise (TypeError "predict_on_batch")
  end.

(** [DAGNN.predict], lines 115-124. *)
Definition predict (index : value) : M value :=
  let! _ := call_super "predict" [index] [] in
  (* index = asintarr(index) *)
  let! f := load_global "asintarr" in
  let! index := call f [index] [] in
  (* with tf.device(self.device): index = astensors(index) *)
  let! _ := load_global "tf" in
  let! device := getattr "device" in
  let! _ := log (ECall "tensorflow.device" [device]) in
  let! f := load_global "astensors" in
  let! index := call f [index] [] in
  (* logit = self.model.predict_on_batch([self.x_norm, self.adj_norm, index]) *)
  let! model := getattr "model" in
  let! m := predict_on_batch_of model in
  let! x_norm := getattr "x_norm" in
  let! adj_norm := getattr "adj_norm" in
  let! logit := predict_on_batch m x_norm adj_norm index in
  (* if tf.is_tensor(logit): logit = logit.numpy() *)
  let! _ := load_global "tf" in
  ret logit.

(** Lines 85-106 of [build]: the body of the [with tf.device(self.device)]
    block, which assembles and compiles the Keras model from the four
    configuration lists as line 78 hands them over ([vh], [va], [vd], [vl]
    for [hiddens], [activations], [dropouts], [l2_norms]).  In [build] the
    block runs only after line 78 has returned, which needs a binding of
    [set_equal_in_length]; it is stated on its own so that the lines can be
    read for what they do once they run.  Every layer, the model, the loss
    and the optimizer are constructed by their own callables, which may
    raise; the three [Input] declarations take the instance's own
    [n_attrs], [floatx] and [intx] and are recorded only. *)
Definition build_graph (vh va vd vl : value) (lr : float) (use_bias : bool)
    : M unit :=
  (* with tf.device(self.device): *)
  let! _ := load_global "tf" in
  let! device := getattr "device" in
  let! _ := log (ECall "tensorflow.device" [device]) in
  (* x = Input(...); adj = Input(...); index = Input(...) *)
  let! _ := load_global "Input" in
  let! n_attrs := getattr "n_attrs" in
  let! _ := getattr "floatx" in
  let! n_attrs := as_int n_attrs in
  let! _ := log (ENew "Input") in
  let! _ := load_global "Input" in
  let! _ := getattr "floatx" in
  let! _ := log (ENew "Input") in
  let! _ := load_global "Input" in
  let! _ := getattr "intx" in
  let! _ := log (ENew "Input") in
  (* for hid, activation, dropout, l2_norm in zip(...): *)
  let! _ := load_global "zip" in
  let! hiddens := as_list_of int_of vh in
  let! activations := as_list_of str_of va in
  let! dropouts := as_list_of float_of vd in
  let! l2_norms := as_list_of float_of vl in
  let cfg := zip4 hiddens activations dropouts l2_norms in
  let! (pos, width, h) := encoder use_bias cfg O n_attrs [] in
  (* h = Dense(self.n_classes, ..., activation=activation, ...)(h): the loop
     variables keep the values of the last iteration *)
  let! f := load_global "Dense" in
  let! n_classes := getattr "n_classes" in
  let! (activation, dropout, l2_norm) :=
    (match last cfg with
     | Some (_, a, d, l) => ret (a, d, l)
     | None => raise (UnboundLocalError "activation")
     end) in
  let! reg := l2_regularizer l2_norm in
  let! n_classes := as_int n_classes in
  let! _ := apply_new "Dense" f [VInt n_classes]
              [ ("use_bias", VBool use_bias);
                ("activation", VStr activation);
                ("kernel_regularizer", reg) ]
              [tensor width] in
  let h := h ++ [Dense n_classes use_bias activation l2_norm
                   (init_kernel pos width n_classes)
                   (Layers.zeros (Z.to_nat n_classes))] in
  (* h = Dropout(dropout)(h) *)
  let! f := load_global "Dropout" in
  let! _ := apply_new "Dropout" f [VFloat dropout] [] [tensor n_classes] in
  let h := h ++ [Dropout dropout] in
  (* h = PropConvolution(self.K, use_bias=use_bias, activation='sigmoid', ...)([h, adj]) *)
  let! f := load_global "PropConvolution" in
  let! K := getattr "K" in
  let! reg := l2_regularizer l2_norm in
  let! K := as_int K in
  let! _ := apply_new "PropConvolution" f [VInt K]
              [ ("use_bias", VBool use_bias);
                ("activation", VStr "sigmoid");
                ("kernel_regularizer", reg) ]
              [tensor n_classes; adj_input] in
  let h := h ++ [PropConvolution K use_bias "sigmoid" l2_norm
                   (map (λ r, hd 0%R r) (init_kernel (S pos) n_classes 1))
                   0%R] in
  (* h = Gather()([h, index]) *)
  let! f := load_global "Gather" in
  let! _ := apply_new "Gather" f [] [] [tensor n_classes; index_input] in
  let h := h ++ [Gather] in
  (* model = Model(inputs=[x, adj, index], outputs=h) *)
  let! f := load_global "Model" in
  let! model := call f []
                  [ ("inputs", VList [tensor n_attrs; adj_input; index_input]);
                    ("outputs", tensor n_classes) ] in
  let! _ := log (ENew "Model") in
  (* model.compile(loss=SparseCategoricalCrossentropy(from_logits=True),
                   optimizer=Adam(lr=lr), metrics=['accuracy']) *)
  let! f := load_global "SparseCategoricalCrossentropy" in
  let! loss := call f [] [("from_logits", VBool true)] in
  let! _ := log (ENew "SparseCategoricalCrossentropy") in
  let! f := load_global "Adam" in
  let! optimizer := call f [] [("lr", VFloat lr)] in
  let! _ := log (ENew "Adam") in
  let! _ := call_method_of "tensorflow.keras.Model.compile" model
              [loss; optimizer; VList [VStr "accuracy"]] in
  (* self.model = model *)
  setattr "model" (VModel (KerasModel n_attrs h lr)).

(** [a[index]] for a one-dimensional integer array [a] and an integer array
    [index] (NumPy): one element per index, in the order of [index]; a
    negative index counts from the end; [IndexError] outside [-n, n). *)
Fixpoint take (a : list Z) (index : list Z) : result (list Z) :=
  match index with
  | [] => Ok []
  | i :: rest =>
      let n := Z.of_nat (length a) in
      if ((- n <=? i) && (i <? n))%Z
      then match a !! Z.to_nat (i mod n), take a rest with
           | Some v, Ok vs => Ok (v :: vs)
           | Some _, Raise e => Raise e
           | None, _ => Raise IndexError
           end
      else Raise IndexError
  end.

(** [a[index]] on objects. *)
Definition getitem (a index : value) : M value :=
  match a, index with
  | VIndex a, VIndex index =>
      match take a index with
      | Ok vs => ret (VIndex vs)
      | Raise e => raise e
      end
  | _, _ => raise (TypeError "indexing")
  end.

(** [DAGNN.train_sequence], lines 108-113. *)
Definition train_sequence (index : value) : M value :=
  (* index = asintarr(index) *)
  let! f := load_global "asintarr" in
  let! index := call f [index] [] in
  (* labels = self.labels[index] *)
  let! labels := getattr "labels" in
  let! labels := getitem labels index in
  (* with tf.device(self.device): *)
  let! _ := load_global "tf" in
  let! device := getattr "device" in
  let! _ := log (ECall "tensorflow.device" [device]) in
  (* sequence = FullBatchNodeSequence([self.x_norm, self.adj_norm, index], labels) *)
  let! f := load_global "FullBatchNodeSequence" in
  let! x_norm := getattr "x_norm" in
  let! adj_norm := getattr "adj_norm" in
  let! sequence := call f [VList [x_norm; adj_norm; index]; labels] [] in
  (* return sequence *)
  ret sequence.

End Methods.
End DAGNN.

(** ** A small instance of the collaborators

    Used to run the methods on concrete inputs: [Bunch] keeps its keyword
    arguments, the conversions are the identity, the normalisers tag their
    argument, and the base class copies what it is given into [self]. *)

Module Sample.
Import Py.

Definition ext_fun (qualname : string) (args : list value)
    (kwargs : list (string * value)) : result value :=
  if String.eqb qualname "graphgallery.Bunch" then Ok (VDict kwargs)
  else if String.eqb qualname "graphgallery.astensors" then Ok (hd VNone args)
  else if String.eqb qualname "graphgallery.asintarr" then Ok (hd VNone args)
  else if String.eqb qualname "graphgallery.normalize_adj"
       then Ok (VObject "normalized_adj" args)
  else if String.eqb qualname "graphgallery.normalize_x"
       then Ok (VObject "normalized_x" args)
  else Raise (ExternalError qualname).

Definition ext_method (meth : string) (args : list value)
    (kwargs : list (string * value)) (d : gmap string value)
    : result value * gmap string value :=
  if String.eqb meth "__init__" then
    (Ok VNone,
     <["device" := VStr "cpu:0"]> (<["graph" := hd VNone args]> d))
  else if String.eqb meth "preprocess" then
    (Ok VNone,
     <["x" := nth 1 args VNone]> (<["adj" := hd VNone args]> d))
  else if String.eqb meth "predict" then
    match d !! "model" with
    | Some (VModel _) => (Ok VNone, d)
    | _ => (Raise (ExternalError "RuntimeError"), d)
    end
  else (Raise (AttributeError meth), d).

Definition init_kernel (pos : nat) (rows cols : Z) : matrix :=
  repeat (repeat 1%R (Z.to_nat cols)) (Z.to_nat rows).

Definition graph : value := VObject "Graph" [].

(** A fresh instance with an empty event log. *)
Definition fresh : world := World ∅ [].

(** The defaults [5e-3] and [0.01] of [build], as binary64 values. *)
Definition l2_default : float := 0x1.47ae147ae147bp-8%float.
Definition lr_default : float := 0x1.47ae147ae147bp-7%float.

(** An instance whose hyper-parameters are set, before [preprocess]. *)
Definition configured (norm_adj norm_x : value) : world :=
  World (<["norm_x" := norm_x]>
           (<["norm_adj" := norm_adj]>
              (<["device" := VStr "cpu:0"]> ∅))) [].

(** A two-node graph with two attributes and a model on it. *)
Definition features : matrix := [[1; 2]; [3; 4]]%R.

Definition model : keras_model :=
  KerasModel 2
    [ Dense 2 false "relu" l2_default [[1; 0]; [0; 1]]%R [0; 0]%R;
      Dropout 0.5%float;
      PropConvolution 1 false "sigmoid" l2_default [1; 1]%R 0%R;
      Gather ]
    lr_default.

Definition compiled : world :=
  World (<["model" := VModel model]>
           (<["adj_norm" := VMatrix Layers.eye2]>
              (<["x_norm" := VMatrix features]>
                 (<["device" := VStr "cpu:0"]> ∅)))) [].

(** The same model and data in an instance that differs in everything
    else: other hyper-parameters and a non-empty event log. *)
Definition compiled' : world :=
  World (<["K" := VInt 7]> (<["norm_adj" := VInt 0]> (self compiled)))
        [ECall "SemiSupervisedModel.predict" [VIndex [0%Z]]].

End Sample.

(** ** A second instance of the collaborators

    As [Sample], with [FullBatchNodeSequence] keeping its arguments. *)

Module Fixture.
Import Py.

Definition ext_fun (qualname : string) (args : list value)
    (kwargs : list (string * value)) : result value :=
  if String.eqb qualname "graphgallery.sequence.FullBatchNodeSequence"
  then Ok (VObject "FullBatchNodeSequence" args)
  else Sample.ext_fun qualname args kwargs.

(** A base class whose [predict] accepts any instance. *)
Definition ext_method (meth : string) (args : list value)
    (kwargs : list (string * value)) (d : gmap string value)
    : result value * gmap string value :=
  if String.eqb meth "predict" then (Ok VNone, d)
  else Sample.ext_method meth args kwargs d.

(** A base class every method of which raises. *)
Definition broken_base (meth : string) (args : list value)
    (kwargs : list (string * value)) (d : gmap string value)
    : result value * gmap string value :=
  (Raise (ExternalError meth), d).

(** An exponential known at the ends of the binary64 range only: it is 0
    below -746 and +∞ above 710, where every binary64 exponential has
    underflowed (from about -745.14 down) and overflowed (from about 709.79
    up); the value in between is a placeholder. *)
Definition exp_out_of_range (x : float) : float :=
  if (x <? -746)%float then 0%float
  else if (710 <? x)%float then infinity
  else 1%float.



(** An instance on which no model was compiled. *)
Definition unbuilt : world :=
  World (<["model" := VNone]> (<["device" := VStr "cpu:0"]> ∅)) [].

(** An instance after [preprocess], with the labels of three nodes. *)
Definition prepared : world :=
  World (<["labels" := VIndex [2; 0; 1]%Z]> (self Sample.compiled)) [].

(** Collaborators for the layer-assembly block of [build]: [Dense] rejects
    a negative number of units and an activation name it does not know,
    [Dropout] a rate outside [0, 1], as the Keras constructors do; the other
    Keras and graphgallery callables of the block accept their arguments. *)
Definition keras (qualname : string) (args : list value)
    (kwargs : list (string * value)) : result value :=
  if String.eqb qualname "tensorflow.keras.layers.Dense" then
    match args, (list_to_map kwargs : gmap string value) !! "activation" with
    | [VInt units], Some (VStr activation) =>
        if (units <? 0)%Z then Raise (ValueError "units")
        else match Layers.activation_fn activation with
             | Some _ => Ok (VObject "Dense" args)
             | None => Raise (ValueError "activation")
             end
    | _, _ => Raise (TypeError "Dense")
    end
  else if String.eqb qualname "tensorflow.keras.layers.Dropout" then
    match args with
    | [VFloat rate] =>
        if ((0 <=? rate) && (rate <=? 1))%float
        then Ok (VObject "Dropout" args)
        else Raise (ValueError "rate")
    | _ => Raise (TypeError "Dropout")
    end
  else if bool_decide
            (qualname ∈ [ "tensorflow.keras.regularizers.l2";
                          "tensorflow.keras.layers.Layer.__call__";
                          "graphgallery.nn.layers.PropConvolution";
                          "graphgallery.nn.layers.Gather";
                          "tensorflow.keras.Model";
                          "tensorflow.keras.losses.SparseCategoricalCrossentropy";
                          "tensorflow.keras.optimizers.Adam";
                          "tensorflow.keras.Model.compile" ])
  then Ok (VObject qualname args)
  else ext_fun qualname args kwargs.

(** An instance ready for the layer-assembly block of [build]. *)
Definition sized (K : Z) : world :=
  World (<["K" := VInt K]>
           (<["n_classes" := VInt 3]>
              (<["n_attrs" := VInt 2]>
                 (<["intx" := VStr "int32"]>
                    (<["floatx" := VStr "float32"]>
                       (<["device" := VStr "cpu:0"]> ∅)))))) [].

End Fixture.

(** * Properties *)

Import Py.

(** ** The numeric layers *)

Section Numeric.
Import Layers.
Open Scope R_scope.

Lemma length_vscale c v : length (vscale c v) = length v.
Proof. apply List.length_map. Qed.

Lemma length_vadd u v : length (vadd u v) = Nat.min (length u) (length v).
Proof. apply length_zip_with. Qed.

Lemma length_zeros d : length (zeros d) = d.
Proof. apply repeat_length. Qed.

Lemma vadd_zeros_r v d : (length v ≤ d)%nat → vadd v (zeros d) = v.
Proof.
  revert d. induction v as [|a v IH]; intros d Hd; [reflexivity|].
  destruct d as [|d]; cbn in Hd; [lia|].
  cbn. rewrite Rplus_0_r. f_equal. apply IH. lia.
Qed.

Lemma vadd_vscale0_l u v : length u = length v → vadd (vscale 0 u) v = v.
Proof.
  revert v.
  induction u as [|a u IH]; intros [|b v] Hl; cbn in *; try lia; [reflexivity|].
  f_equal; [lra|]. apply IH. lia.
Qed.

Lemma vscale_1 v : vscale 1 v = v.
Proof.
  induction v as [|a v IH]; cbn; [reflexivity|].
  rewrite Rmult_1_l. f_equal. exact IH.
Qed.

Lemma vadd_vscale_same a b h : vadd (vscale a h) (vscale b h) = vscale (a + b) h.
Proof. induction h as [|x h IH]; cbn; [reflexivity|]. f_equal; [lra|exact IH]. Qed.

Lemma lincomb_cons d c cs h rows :
  lincomb d (c :: cs) (h :: rows) = vadd (vscale c h) (lincomb d cs rows).
Proof. reflexivity. Qed.

Lemma lincomb_length_le d cs rows : (length (lincomb d cs rows) ≤ d)%nat.
Proof.
  revert rows. induction cs as [|c cs IH]; intros rows.
  - cbn. rewrite length_zeros. lia.
  - destruct rows as [|h rows].
    + cbn. rewrite length_zeros. lia.
    + rewrite lincomb_cons, length_vadd. specialize (IH rows). lia.
Qed.

Lemma lincomb_length d cs rows :
  Forall (λ r, length r = d) rows → length (lincomb d cs rows) = d.
Proof.
  revert rows. induction cs as [|c cs IH]; intros rows Hrows.
  - cbn. apply length_zeros.
  - destruct rows as [|h rows].
    + cbn. apply length_zeros.
    + inversion Hrows as [|? ? Hh Hrest]; subst.
      rewrite lincomb_cons, length_vadd, length_vscale, IH by assumption. lia.
Qed.

Lemma width_is_matrix n d H : is_matrix (S n) d H → width H = d.
Proof.
  intros [Hlen Hrows]. destruct H as [|r H]; [discriminate|].
  inversion Hrows; subst. reflexivity.
Qed.

Lemma matmul_is_matrix n d A H :
  is_matrix n n A → is_matrix n d H → is_matrix n d (matmul A H).
Proof.
  intros [HA _] HH. unfold matmul. split.
  - rewrite List.length_map. exact HA.
  - apply List.Forall_map. destruct n as [|n].
    + destruct A; [constructor|discriminate].
    + rewrite (width_is_matrix _ _ _ HH). apply Forall_true. intros a.
      apply lincomb_length. apply HH.
Qed.

Lemma propagations_is_matrix K n d A H :
  is_matrix n n A → is_matrix n d H → Forall (is_matrix n d) (propagations K A H).
Proof.
  intros HA. revert H. induction K as [|K IH]; intros H HH; cbn.
  - constructor; [assumption|constructor].
  - constructor; [assumption|]. apply IH. apply matmul_is_matrix; assumption.
Qed.

Lemma well_formed_is_matrix n d A H0 :
  is_matrix n n A → is_matrix n d H0 → well_formed A H0 = true.
Proof.
  intros [HA HrA] [HH _]. unfold well_formed.
  apply andb_true_intro. split.
  - apply Nat.eqb_eq. lia.
  - apply forallb_forall. intros r Hr.
    apply Nat.eqb_eq. rewrite HA.
    rewrite List.Forall_forall in HrA. apply HrA. exact Hr.
Qed.

Lemma zip_with_map_diag {X Y Z} (f : Y → X → Z) (g : X → Y) (l : list X) :
  zip_with f (map g l) l = map (λ x, f (g x) x) l.
Proof. induction l as [|x l IH]; cbn; [reflexivity|]. f_equal. exact IH. Qed.

Lemma map_seq_nth2 {X Y Z} (f : X → Y → Z) dx dy (l1 : list X) (l2 : list Y) :
  length l2 = length l1 →
  map (λ i, f (nth i l1 dx) (nth i l2 dy)) (seq 0 (length l1)) = zip_with f l1 l2.
Proof.
  revert l2.
  induction l1 as [|x l1 IH]; intros [|y l2] Hl; cbn in *; try lia; [reflexivity|].
  f_equal. rewrite <- seq_shift, List.map_map. apply IH. lia.
Qed.

Lemma zip_with_ext_r {X Y Z} (P : Y → Prop) (f g : X → Y → Z) l1 l2 :
  Forall P l2 → (∀ x y, P y → f x y = g x y) →
  zip_with f l1 l2 = zip_with g l1 l2.
Proof.
  intros HP Hfg. revert l1.
  induction HP as [|y l2 Hy _ IH]; intros [|x l1]; cbn; try reflexivity.
  rewrite Hfg by exact Hy. f_equal. apply IH.
Qed.

Lemma zip_with_diag {X Z} (f : X → X → Z) l : zip_with f l l = map (λ x, f x x) l.
Proof. induction l as [|x l IH]; cbn; [reflexivity|]. f_equal. exact IH. Qed.

(** Past the check of the dimensions the operator is the gated sum over the
    stack. *)
Lemma PropConvolution_call_run K act use_bias W b H0 A :
  (1 ≤ K)%Z → well_formed A H0 = true →
  PropConvolution_call K act use_bias W b H0 A =
  Ok (map (λ hs, lincomb (width H0) (map (gate act use_bias W b) hs) hs)
        (stack (propagations (Z.to_nat K) A H0) (length H0))).
Proof.
  intros HK Hwf. unfold PropConvolution_call.
  rewrite Hwf. cbn [negb].
  unfold gates, retain_scores. rewrite zip_with_map_diag. reflexivity.
Qed.

Lemma matmul_eye2 d H0 : is_matrix 2 d H0 → matmul eye2 H0 = H0.
Proof.
  intros [Hlen Hrows].
  destruct H0 as [|r0 [|r1 [|? ?]]]; try discriminate.
  inversion Hrows as [|? ? Hr0 Hrows']; subst.
  inversion Hrows' as [|? ? Hr1 _]; subst.
  unfold matmul, eye2. cbn [map width]. rewrite !lincomb_cons.
  change (lincomb (length r0) [] []) with (zeros (length r0)).
  f_equal; [|f_equal].
  - rewrite vscale_1.
    rewrite (vadd_vscale0_l r1) by (rewrite length_zeros; exact Hr1).
    apply vadd_zeros_r. lia.
  - rewrite vscale_1, (vadd_zeros_r r1) by lia.
    apply vadd_vscale0_l. lia.
Qed.

Lemma sigmoid_bounds x : 0 < sigmoid x < 1.
Proof.
  unfold sigmoid. pose proof (exp_pos (- x)) as He.
  split.
  - apply Rinv_0_lt_compat. lra.
  - apply Rmult_lt_reg_l with (1 + exp (- x)); [lra|].
    rewrite Rinv_r by lra. lra.
Qed.

Lemma Gather_call_suffix (pre H : matrix) :
  Gather_call (pre ++ H) (map Z.of_nat (seq (length pre) (length H))) = Ok H.
Proof.
  revert pre. induction H as [|r H IH]; intros pre; [reflexivity|].
  cbn [length seq map Gather_call].
  assert ((0 <=? Z.of_nat (length pre))%Z
          && (Z.of_nat (length pre) <? Z.of_nat (length (pre ++ r :: H)))%Z
          = true) as ->.
  { rewrite length_app. cbn [length].
    apply andb_true_intro. split; [apply Z.leb_le | apply Z.ltb_lt]; lia. }
  rewrite Nat2Z.id.
  rewrite lookup_app_r by lia. rewrite Nat.sub_diag. cbn [lookup list_lookup].
  specialize (IH (pre ++ [r])).
  rewrite <- app_assoc in IH. cbn [app] in IH.
  rewrite length_app in IH. cbn [length] in IH. rewrite Nat.add_1_r in IH.
  rewrite IH. reflexivity.
Qed.

(** C2.  With [K = 1] the operator returns [g_0 · H_0 + g_1 · (A · H_0)] and
    nothing else, where [g_0] and [g_1] are the gates of the rows of [H_0]
    and of [A · H_0]; when [A] is the identity on two nodes, [A · H_0] is
    [H_0] and the output is [(g_0 + g_1) · H_0] row by row. *)
Theorem PropConvolution_one_step act use_bias W b H0 A :
  well_formed A H0 = true →
  PropConvolution_call 1 act use_bias W b H0 A
    = Ok (zip_with
            (λ h0 h1, vadd (vscale (gate act use_bias W b h0) h0)
                           (vscale (gate act use_bias W b h1) h1))
            H0 (matmul A H0))
  ∧ (∀ d, A = eye2 → is_matrix 2 d H0 →
       matmul A H0 = H0 ∧
       PropConvolution_call 1 act use_bias W b H0 A
         = Ok (map (λ h, vscale (gate act use_bias W b h + gate act use_bias W b h) h)
                 H0)).
Proof.
  intros Hwf. set (g := gate act use_bias W b).
  assert (PropConvolution_call 1 act use_bias W b H0 A
    = Ok (zip_with (λ h0 h1, vadd (vscale (g h0) h0) (vscale (g h1) h1))
            H0 (matmul A H0))) as Hgen.
  { rewrite PropConvolution_call_run by (lia || exact Hwf).
    change (Z.to_nat 1) with 1%nat. cbn [propagations]. unfold stack.
    cbn [map]. f_equal.
    assert (length (matmul A H0) = length H0) as Hlen.
    { unfold matmul. rewrite List.length_map.
      unfold well_formed in Hwf. apply andb_prop in Hwf as [Hn _].
      apply Nat.eqb_eq in Hn. exact Hn. }
    rewrite List.map_map. cbn [map]. fold g.
    rewrite (map_seq_nth2 (λ h0 h1, lincomb (width H0) [g h0; g h1] [h0; h1])
               [] [] H0 (matmul A H0) Hlen).
    apply (zip_with_ext_r (λ h1, (length h1 ≤ width H0)%nat)).
    - unfold matmul. apply List.Forall_map, Forall_true. intros a.
      apply lincomb_length_le.
    - intros h0 h1 Hh1. rewrite !lincomb_cons.
      change (lincomb (width H0) [] []) with (zeros (width H0)).
      rewrite (vadd_zeros_r (vscale (g h1) h1)) by (rewrite length_vscale; exact Hh1).
      reflexivity. }
  split; [exact Hgen|].
  intros d -> HH. pose proof (matmul_eye2 d H0 HH) as Heye.
  split; [exact Heye|].
  rewrite Hgen, Heye, zip_with_diag. f_equal.
  apply List.map_ext. intros h. apply vadd_vscale_same.
Qed.

Lemma PropConvolution_one_step_witness :
  PropConvolution_call 1 sigmoid false [1; 1] 0 Sample.features eye2
  = Ok (map (λ h, vscale (gate sigmoid false [1; 1] 0 h
                          + gate sigmoid false [1; 1] 0 h) h)
          Sample.features).
Proof.
  refine (proj2 (proj2 (PropConvolution_one_step sigmoid false [1; 1] 0
                          Sample.features eye2 _) 2%nat _ _)).
  - reflexivity.
  - reflexivity.
  - split; [reflexivity | repeat constructor].
Defined.

(** The floating-point logistic is exactly 1 where the exponential
    underflows to 0 and exactly 0 where it overflows to +∞. *)
Lemma sigmoid_float_underflow fexp x :
  fexp (- x)%float = 0%float → sigmoid_float fexp x = 1%float.
Proof. intros H. unfold sigmoid_float. rewrite H. reflexivity. Qed.

Lemma sigmoid_float_overflow fexp x :
  fexp (- x)%float = infinity → sigmoid_float fexp x = 0%float.
Proof. intros H. unfold sigmoid_float. rewrite H. reflexivity. Qed.

(** C3 (as amended).  The layer is built with [activation='sigmoid'], which
    names the logistic function.  In exact arithmetic every gate the
    operator computes with it, for every node and every step, lies strictly
    between 0 and 1.  In floating-point arithmetic the bounds are reached:
    the gate of a node is exactly 1 when the exponential of its negated
    pre-activation underflows to 0, and exactly 0 when it overflows. *)
Theorem gate_bounds_exact_and_floating_point
    (K : nat) use_bias W b H0 A fexp (Wf : list float) bf (hf : list float) :
  (activation_fn "sigmoid" = Some sigmoid
   ∧ Forall (Forall (λ g, 0 < g < 1)) (gates K sigmoid use_bias W b H0 A))
  ∧ (fexp (- (if use_bias then dot_float Wf hf + bf else dot_float Wf hf))%float
     = 0%float →
     gate_float fexp use_bias Wf bf hf = 1%float)
  ∧ (fexp (- (if use_bias then dot_float Wf hf + bf else dot_float Wf hf))%float
     = infinity →
     gate_float fexp use_bias Wf bf hf = 0%float).
Proof.
  split; [split; [reflexivity|]|split].
  - unfold gates, retain_scores.
    apply List.Forall_map, Forall_true. intros hs.
    apply List.Forall_map, Forall_true. intros h.
    unfold gate. apply sigmoid_bounds.
  - apply sigmoid_float_underflow.
  - apply sigmoid_float_overflow.
Qed.

Lemma gate_bounds_exact_and_floating_point_witness :
  gate_float Fixture.exp_out_of_range false [1%float] 0%float [1000%float]
  = 1%float
  ∧ gate_float Fixture.exp_out_of_range false [1%float] 0%float [(-1000)%float]
    = 0%float.
Proof.
  split.
  - apply (proj1 (proj2 (gate_bounds_exact_and_floating_point
                           O false [] 0 [] [] Fixture.exp_out_of_range
                           [1%float] 0%float [1000%float]))).
    reflexivity.
  - apply (proj2 (proj2 (gate_bounds_exact_and_floating_point
                           O false [] 0 [] [] Fixture.exp_out_of_range
                           [1%float] 0%float [(-1000)%float]))).
    reflexivity.
Defined.

(** C3 fails as stated.  Whatever the exponential, as long as it underflows
    at -1000 and overflows at 1000 as binary64 demands, the gate of the
    finite row [1000] under the finite weight [1] is exactly 1 and the gate
    of the row [-1000] is exactly 0: the gates of finite inputs do not all
    lie strictly between 0 and 1. *)
Lemma gate_float_reaches_0_and_1 :
  (∀ fexp : float → float,
     fexp (-1000)%float = 0%float → fexp 1000%float = infinity →
     gate_float fexp false [1%float] 0%float [1000%float] = 1%float
     ∧ gate_float fexp false [1%float] 0%float [(-1000)%float] = 0%float)
  ∧ ¬ (∀ fexp : float → float,
         fexp (-1000)%float = 0%float → fexp 1000%float = infinity →
         ∀ use_bias (Wf : list float) bf (hf : list float),
           forallb PrimFloat.is_finite Wf = true →
           PrimFloat.is_finite bf = true →
           forallb PrimFloat.is_finite hf = true →
           ((0 <? gate_float fexp use_bias Wf bf hf)
            && (gate_float fexp use_bias Wf bf hf <? 1))%float = true).
Proof.
  assert (∀ fexp : float → float,
            fexp (-1000)%float = 0%float → fexp 1000%float = infinity →
            gate_float fexp false [1%float] 0%float [1000%float] = 1%float
            ∧ gate_float fexp false [1%float] 0%float [(-1000)%float] = 0%float)
    as Hsat.
  { intros fexp Hlo Hhi. split.
    - apply sigmoid_float_underflow. exact Hlo.
    - apply sigmoid_float_overflow. exact Hhi. }
  split; [exact Hsat|].
  intros Hclaim.
  specialize (Hclaim Fixture.exp_out_of_range eq_refl eq_refl
                false [1%float] 0%float [1000%float] eq_refl eq_refl eq_refl).
  rewrite (proj1 (Hsat Fixture.exp_out_of_range eq_refl eq_refl)) in Hclaim.
  discriminate Hclaim.
Qed.

(** C4.  For every [K ≥ 1], a square [n × n] operator [A] and an [n × d]
    input [H0], the operator returns a tensor of shape [n × d]. *)
Theorem PropConvolution_output_shape K act use_bias W b n d H0 A :
  (1 ≤ K)%Z → is_matrix n n A → is_matrix n d H0 →
  ∃ out, PropConvolution_call K act use_bias W b H0 A = Ok out ∧ is_matrix n d out.
Proof.
  intros HK HA HH. eexists. split.
  - apply PropConvolution_call_run; [exact HK|].
    eapply well_formed_is_matrix; eassumption.
  - pose proof (propagations_is_matrix (Z.to_nat K) n d A H0 HA HH) as Hps.
    destruct HH as [Hlen Hrows]. unfold stack. split.
    + rewrite !List.length_map, length_seq. exact Hlen.
    + rewrite List.map_map. apply List.Forall_map.
      apply List.Forall_forall. intros i Hi. apply in_seq in Hi.
      destruct n as [|n]; [lia|].
      rewrite (width_is_matrix n d H0) by (split; assumption).
      apply lincomb_length. apply List.Forall_map.
      eapply List.Forall_impl; [|exact Hps].
      intros Ht [Hl Hr]. cbn beta.
      rewrite List.Forall_forall in Hr. apply Hr. apply nth_In. lia.
Qed.

Lemma PropConvolution_output_shape_witness :
  ∃ out, PropConvolution_call 3 sigmoid true [1; 1] 1 Sample.features eye2 = Ok out
         ∧ is_matrix 2 2 out.
Proof.
  apply (PropConvolution_output_shape 3 sigmoid true [1; 1] 1 2 2
           Sample.features eye2).
  - lia.
  - split; [reflexivity | repeat constructor].
  - split; [reflexivity | repeat constructor].
Defined.


(** C8.  Gathering the indices [0, 1, ..., n-1] in this order gives back the
    tensor itself, row for row. *)
Theorem Gather_all_indices_roundtrip (H : matrix) :
  Gather_call H (map Z.of_nat (seq 0 (length H))) = Ok H.
Proof. apply (Gather_call_suffix [] H). Qed.

End Numeric.

Example Gather_duplicates_and_order :
  Layers.Gather_call [[1]; [2]; [3]]%R [2; 0; 2]%Z = Ok [[3]; [1]; [3]]%R.
Proof. reflexivity. Qed.

Example Gather_out_of_range :
  Layers.Gather_call [[1]; [2]; [3]]%R [0; 3]%Z = Raise IndexError.
Proof. reflexivity. Qed.

Example PropConvolution_rejects_shape_mismatch :
  Layers.PropConvolution_call 2 Layers.sigmoid false [1]%R 0%R
    [[1]; [2]; [3]; [4]]%R
    [[1; 0; 0; 0; 0]; [0; 1; 0; 0; 0]; [0; 0; 1; 0; 0]; [0; 0; 0; 1; 0];
     [0; 0; 0; 0; 1]]%R
  = Raise ShapeError.
Proof. reflexivity. Qed.

(** ** Running the methods *)

Lemma bind_run {A B} (c : M A) (k : A → M B) w :
  bind c k w =
  match c w with
  | (Ok a, w') => k a w'
  | (Raise e, w') => (Raise e, w')
  end.
Proof. reflexivity. Qed.

Lemma load_global_unbound name :
  module_globals !! name = None → bool_decide (name ∈ builtins) = false →
  ∀ w, load_global name w = (Raise (NameError name), w).
Proof. intros H1 H2 w. unfold load_global. rewrite H1, H2. reflexivity. Qed.

Lemma load_global_module name v :
  module_globals !! name = Some v → ∀ w, load_global name w = (Ok v, w).
Proof. intros H1 w. unfold load_global. rewrite H1. reflexivity. Qed.

Lemma load_global_builtin name :
  module_globals !! name = None → bool_decide (name ∈ builtins) = true →
  ∀ w, load_global name w = (Ok (VName ("builtins." ++ name)%string), w).
Proof. intros H1 H2 w. unfold load_global. rewrite H1, H2. reflexivity. Qed.

Lemma getattr_run attr v w : self w !! attr = Some v → getattr attr w = (Ok v, w).
Proof. intros H. unfold getattr. rewrite H. reflexivity. Qed.

Lemma getattr_case attr w :
  getattr attr w =
  match self w !! attr with
  | Some v => (Ok v, w)
  | None => (Raise (AttributeError attr), w)
  end.
Proof. reflexivity. Qed.

(** One step of a method: the next statement reads the global [name]. *)
Ltac load name :=
  rewrite bind_run;
  let o := eval vm_compute in (module_globals !! name) in
  lazymatch o with
  | Some ?v => rewrite (load_global_module name v eq_refl)
  | None =>
      first [ rewrite (load_global_builtin name eq_refl eq_refl)
            | rewrite (load_global_unbound name eq_refl eq_refl) ]
  end;
  cbv beta iota.

(** One step of a method: the next statement reads [self.name], known to
    hold [v]. *)
Ltac attr name v :=
  rewrite bind_run, (getattr_run name v) by (cbn [self]; eassumption);
  cbv beta iota.

Example load_Bunch w : load_global "Bunch" w = (Ok (VName "graphgallery.Bunch"), w).
Proof. reflexivity. Qed.

Example load_zip w : load_global "zip" w = (Ok (VName "builtins.zip"), w).
Proof. reflexivity. Qed.

Section Methods.

Variable ext_fun : string → list value → list (string * value) → result value.
Variable ext_method :
  string → list value → list (string * value) →
  gmap string value → result value * gmap string value.
Variable init_kernel : nat → Z → Z → matrix.

Lemma call_super_run meth args kwargs w :
  DAGNN.call_super ext_method meth args kwargs w =
  (fst (ext_method meth args kwargs (self w)),
   World (snd (ext_method meth args kwargs (self w)))
         (trace w ++ [ECall ("SemiSupervisedModel." ++ meth)%string args])).
Proof.
  unfold DAGNN.call_super. load "super".
  rewrite bind_run. unfold log. simpl.
  destruct (ext_method meth args kwargs (self w)). reflexivity.
Qed.

Lemma call_run qualname args kwargs w :
  DAGNN.call ext_fun (VName qualname) args kwargs w =
  (ext_fun qualname args kwargs, World (self w) (trace w ++ [ECall qualname args])).
Proof. reflexivity. Qed.

(** The constructor, statement by statement: the base constructor runs, the
    three attributes are stored, and reading [adj] on line 56 fails. *)
Lemma init_run graph norm_adj norm_x K device seed name kwargs w :
  DAGNN.__init__ ext_fun ext_method graph norm_adj norm_x K device seed name kwargs w =
  match ext_method "__init__" [graph]
          ([("device", device); ("seed", seed); ("name", name)] ++ kwargs) (self w) with
  | (Ok _, d) =>
      (Raise (NameError "adj"),
       World (<["K" := K]> (<["norm_x" := norm_x]> (<["norm_adj" := norm_adj]> d)))
             (trace w ++ [ECall "SemiSupervisedModel.__init__" [graph]]))
  | (Raise e, d) =>
      (Raise e, World d (trace w ++ [ECall "SemiSupervisedModel.__init__" [graph]]))
  end.
Proof.
  unfold DAGNN.__init__. rewrite bind_run, call_super_run.
  destruct (ext_method "__init__" _ _ _) as [[r|e] d]; cbn [fst snd]; [|reflexivity].
  do 3 (rewrite bind_run; unfold setattr at 1; cbv beta iota).
  load "adj". reflexivity.
Qed.

(** [build], statement by statement: [Bunch] is called on the recorded
    parameters, and reading [set_equal_in_length] on line 78 fails. *)
Lemma build_run hiddens activations dropouts l2_norms lr use_bias w :
  DAGNN.build ext_fun init_kernel hiddens activations dropouts l2_norms lr use_bias w =
  match ext_fun "graphgallery.Bunch" []
          [ ("hiddens", VList (map VInt hiddens));
            ("activations", VList (map VStr activations));
            ("dropouts", VList (map VFloat dropouts));
            ("l2_norms", VList (map VFloat l2_norms));
            ("lr", VFloat lr);
            ("use_bias", VBool use_bias) ] with
  | Ok _ =>
      (Raise (NameError "set_equal_in_length"),
       World (self w) (trace w ++ [ECall "graphgallery.Bunch" []]))
  | Raise e =>
      (Raise e, World (self w) (trace w ++ [ECall "graphgallery.Bunch" []]))
  end.
Proof.
  unfold DAGNN.build. load "locals".
  rewrite bind_run. cbn [DAGNN.dict_pop String.eqb Ascii.eqb Bool.eqb].
  unfold ret at 1. load "Bunch". rewrite bind_run, call_run.
  destruct (ext_fun "graphgallery.Bunch" _ _) as [p|e]; [|reflexivity].
  load "set_equal_in_length". reflexivity.
Qed.

(** C1.  Neither [adj] nor [x] is bound in the module or in the builtins;
    the constructor never returns normally; and whenever the constructor of
    the base class returns, the constructor raises [NameError] for [adj]. *)
Theorem DAGNN_init_raises_NameError
    graph norm_adj norm_x K device seed name kwargs w :
  (∀ w', fst (load_global "adj" w') = Raise (NameError "adj")
         ∧ fst (load_global "x" w') = Raise (NameError "x"))
  ∧ (∀ u, fst (DAGNN.__init__ ext_fun ext_method
                 graph norm_adj norm_x K device seed name kwargs w) ≠ Ok u)
  ∧ (∀ r, fst (ext_method "__init__" [graph]
                 ([("device", device); ("seed", seed); ("name", name)] ++ kwargs)
                 (self w)) = Ok r →
          fst (DAGNN.__init__ ext_fun ext_method
                 graph norm_adj norm_x K device seed name kwargs w)
          = Raise (NameError "adj")).
Proof.
  split; [intros w'; split; reflexivity|].
  rewrite init_run.
  destruct (ext_method "__init__" _ _ _) as [[r|e] d]; cbn [fst].
  - split; [discriminate | reflexivity].
  - split; [discriminate | intros r Hr; discriminate Hr].
Qed.

(** C9.  [set_equal_in_length] is bound nowhere (the module imports only
    [EqualVarLength] from [graphgallery.utils.shape]); [build] never
    returns normally and constructs no Keras object; and whenever [Bunch]
    returns, [build] raises [NameError] for [set_equal_in_length]. *)
Theorem build_raises_NameError
    hiddens activations dropouts l2_norms lr use_bias w :
  (module_globals !! "set_equal_in_length" = None
   ∧ bool_decide ("set_equal_in_length" ∈ builtins) = false
   ∧ module_globals !! "EqualVarLength"
     = Some (VName "graphgallery.utils.shape.EqualVarLength"))
  ∧ (∀ u, fst (DAGNN.build ext_fun init_kernel
                 hiddens activations dropouts l2_norms lr use_bias w) ≠ Ok u)
  ∧ (∀ cls, ENew cls ∈ trace (snd (DAGNN.build ext_fun init_kernel
                 hiddens activations dropouts l2_norms lr use_bias w)) →
            ENew cls ∈ trace w)
  ∧ (∀ paras,
       ext_fun "graphgallery.Bunch" []
         [ ("hiddens", VList (map VInt hiddens));
           ("activations", VList (map VStr activations));
           ("dropouts", VList (map VFloat dropouts));
           ("l2_norms", VList (map VFloat l2_norms));
           ("lr", VFloat lr);
           ("use_bias", VBool use_bias) ] = Ok paras →
       fst (DAGNN.build ext_fun init_kernel
              hiddens activations dropouts l2_norms lr use_bias w)
       = Raise (NameError "set_equal_in_length")).
Proof.
  split; [repeat split; reflexivity|].
  rewrite build_run.
  assert (∀ cls, ENew cls ∈ trace w ++ [ECall "graphgallery.Bunch" []] →
                 ENew cls ∈ trace w) as Hnew.
  { intros cls Hin. apply elem_of_app in Hin as [Hin|Hin]; [exact Hin|].
    apply list_elem_of_singleton in Hin. discriminate Hin. }
  destruct (ext_fun "graphgallery.Bunch" _ _) as [p|e]; cbn [fst snd trace].
  - split; [discriminate|]. split; [exact Hnew|reflexivity].
  - split; [discriminate|]. split; [exact Hnew|]. intros p Hp. discriminate Hp.
Qed.


(** [preprocess] with a false [self.norm_adj], statement by statement. *)
Lemma preprocess_run_falsy adj x w r d1 raw x0 na nx x1 dev xn an :
  ext_method "preprocess" [adj; x] [] (self w) = (Ok r, d1) →
  d1 !! "adj" = Some raw →
  d1 !! "x" = Some x0 →
  d1 !! "norm_adj" = Some na →
  truthy na = false →
  d1 !! "norm_x" = Some nx →
  (if truthy nx then ext_fun "graphgallery.normalize_x" [x0] [("norm", nx)]
   else Ok x0) = Ok x1 →
  d1 !! "device" = Some dev →
  ext_fun "graphgallery.astensors" [VList [x1; raw]] [] = Ok (VList [xn; an]) →
  DAGNN.preprocess ext_fun ext_method adj x w =
  (Ok tt,
   World (<["adj_norm" := an]> (<["x_norm" := xn]> d1))
         (trace w ++ [ECall "SemiSupervisedModel.preprocess" [adj; x]]
                  ++ (if truthy nx
                      then [ECall "graphgallery.normalize_x" [x0]] else [])
                  ++ [ECall "tensorflow.device" [dev];
                      ECall "graphgallery.astensors" [VList [x1; raw]]])).
Proof.
  intros Hbase Hadj Hx Hna Hfalse Hnx Hx1 Hdev Hts.
  unfold DAGNN.preprocess.
  rewrite bind_run, call_super_run, Hbase. cbn [fst snd].
  attr "adj" raw. attr "x" x0. attr "norm_adj" na.
  rewrite Hfalse. rewrite bind_run. unfold ret at 1. cbv beta iota.
  attr "norm_x" nx.
  destruct (truthy nx).
  - rewrite bind_run. load "normalize_x". attr "norm_x" nx.
    rewrite call_run, Hx1. cbn [self trace].
    load "tf". attr "device" dev.
    rewrite bind_run. unfold log at 1. cbn [self trace].
    load "astensors". rewrite bind_run, call_run, Hts. cbn [self trace].
    unfold DAGNN.unpack2. rewrite bind_run. unfold ret at 1. cbv beta iota.
    rewrite bind_run. unfold setattr. cbn [self trace].
    rewrite <- !app_assoc. reflexivity.
  - rewrite bind_run. unfold ret at 1. cbv beta iota. injection Hx1 as <-.
    load "tf". attr "device" dev.
    rewrite bind_run. unfold log at 1. cbn [self trace].
    load "astensors". rewrite bind_run, call_run, Hts. cbn [self trace].
    unfold DAGNN.unpack2. rewrite bind_run. unfold ret at 1. cbv beta iota.
    rewrite bind_run. unfold setattr. cbn [self trace].
    rewrite <- !app_assoc. reflexivity.
Qed.

(** C10.  When [self.norm_adj] is [0], [0.0] or [None], [preprocess] does
    not call [normalize_adj] at all: the adjacency matrix that the base
    class stored in [self.adj] is what [astensors] receives, and its
    conversion is what ends up in [self.adj_norm]. *)
Theorem preprocess_falsy_norm_adj_skips_normalization
    adj x w r d1 raw x0 na nx x1 dev xn an :
  ext_method "preprocess" [adj; x] [] (self w) = (Ok r, d1) →
  d1 !! "adj" = Some raw →
  d1 !! "x" = Some x0 →
  d1 !! "norm_adj" = Some na →
  na = VInt 0 ∨ na = VFloat 0%float ∨ na = VNone →
  d1 !! "norm_x" = Some nx →
  (if truthy nx then ext_fun "graphgallery.normalize_x" [x0] [("norm", nx)]
   else Ok x0) = Ok x1 →
  d1 !! "device" = Some dev →
  ext_fun "graphgallery.astensors" [VList [x1; raw]] [] = Ok (VList [xn; an]) →
  fst (DAGNN.preprocess ext_fun ext_method adj x w) = Ok tt
  ∧ self (snd (DAGNN.preprocess ext_fun ext_method adj x w)) !! "adj_norm" = Some an
  ∧ (∀ args,
       ECall "graphgallery.normalize_adj" args
         ∈ trace (snd (DAGNN.preprocess ext_fun ext_method adj x w)) →
       ECall "graphgallery.normalize_adj" args ∈ trace w).
Proof.
  intros Hbase Hadj Hx Hna Hzero Hnx Hx1 Hdev Hts.
  assert (truthy na = false) as Hfalse
    by (destruct Hzero as [-> | [-> | ->]]; reflexivity).
  rewrite (preprocess_run_falsy adj x w r d1 raw x0 na nx x1 dev xn an)
    by assumption.
  cbn [fst snd self trace].
  split; [reflexivity|]. split; [apply lookup_insert_eq|].
  intros args Hin.
  apply elem_of_app in Hin as [Hin|Hin]; [exact Hin|].
  apply elem_of_app in Hin as [Hin|Hin].
  { apply list_elem_of_singleton in Hin. discriminate Hin. }
  apply elem_of_app in Hin as [Hin|Hin].
  { destruct (truthy nx).
    - apply list_elem_of_singleton in Hin. discriminate Hin.
    - apply elem_of_nil in Hin. destruct Hin. }
  apply elem_of_cons in Hin as [Hin|Hin]; [discriminate Hin|].
  apply list_elem_of_singleton in Hin. discriminate Hin.
Qed.

Lemma predict_on_batch_pure m x adj index w :
  DAGNN.predict_on_batch m x adj index w =
  (fst (DAGNN.predict_on_batch m x adj index (World ∅ [])), w).
Proof.
  unfold DAGNN.predict_on_batch.
  destruct x; try reflexivity. destruct adj; try reflexivity.
  destruct index; try reflexivity.
  destruct (Layers.forward _ _ _ _); reflexivity.
Qed.

(** What [predict] returns is a function of the index, of the outcome of the
    check made by the base class, and of four attributes of [self] read
    after that check. *)
Lemma predict_reads :
  ∃ F : value → result value →
        option value → option value → option value → option value →
        result value,
  ∀ index w,
    fst (DAGNN.predict ext_fun ext_method index w) =
    F index (fst (ext_method "predict" [index] [] (self w)))
      (snd (ext_method "predict" [index] [] (self w)) !! "device")
      (snd (ext_method "predict" [index] [] (self w)) !! "model")
      (snd (ext_method "predict" [index] [] (self w)) !! "x_norm")
      (snd (ext_method "predict" [index] [] (self w)) !! "adj_norm").
Proof.
  exists (λ index r device model x_norm adj_norm,
    match r with
    | Raise e => Raise e
    | Ok _ =>
      match ext_fun "graphgallery.asintarr" [index] [] with
      | Raise e => Raise e
      | Ok index =>
        match device with
        | None => Raise (AttributeError "device")
        | Some _ =>
          match ext_fun "graphgallery.astensors" [index] [] with
          | Raise e => Raise e
          | Ok index =>
            match model, x_norm, adj_norm with
            | None, _, _ => Raise (AttributeError "model")
            | Some (VModel _), None, _ => Raise (AttributeError "x_norm")
            | Some (VModel _), Some _, None => Raise (AttributeError "adj_norm")
            | Some (VModel m), Some x, Some a =>
                fst (DAGNN.predict_on_batch m x a index (World ∅ []))
            | Some _, _, _ => Raise (AttributeError "predict_on_batch")
            end
          end
        end
      end
    end).
  intros index w. unfold DAGNN.predict.
  rewrite bind_run, call_super_run.
  destruct (ext_method "predict" [index] [] (self w)) as [[r|e] d];
    cbn [fst snd]; [|reflexivity].
  load "asintarr". rewrite bind_run, call_run.
  destruct (ext_fun "graphgallery.asintarr" [index] []) as [i1|e]; [|reflexivity].
  cbn [self trace]. load "tf".
  rewrite bind_run, getattr_case. cbn [self].
  destruct (d !! "device") as [dev|]; [|reflexivity].
  rewrite bind_run. unfold log at 1. cbn [self trace].
  load "astensors". rewrite bind_run, call_run.
  destruct (ext_fun "graphgallery.astensors" [i1] []) as [i2|e]; [|reflexivity].
  cbn [self trace].
  rewrite bind_run, getattr_case. cbn [self].
  destruct (d !! "model") as [mo|]; [|reflexivity].
  rewrite bind_run. unfold DAGNN.predict_on_batch_of at 1.
  destruct mo as [| | | | | | | | | |m|]; try reflexivity.
  unfold ret at 1. cbv beta iota.
  rewrite bind_run, getattr_case. cbn [self].
  destruct (d !! "x_norm") as [xn|]; [|reflexivity].
  rewrite bind_run, getattr_case. cbn [self].
  destruct (d !! "adj_norm") as [an|]; [|reflexivity].
  rewrite bind_run, predict_on_batch_pure.
  destruct (DAGNN.predict_on_batch m xn an i2 (World ∅ [])) as [[l|e] w0];
    cbn [fst]; [|reflexivity].
  load "tf". reflexivity.
Qed.

(** [predict] changes nothing in [self] beyond what the base class does. *)
Lemma predict_self index w :
  self (snd (DAGNN.predict ext_fun ext_method index w))
  = snd (ext_method "predict" [index] [] (self w)).
Proof.
  unfold DAGNN.predict.
  rewrite bind_run, call_super_run.
  destruct (ext_method "predict" [index] [] (self w)) as [[r|e] d];
    cbn [fst snd]; [|reflexivity].
  load "asintarr". rewrite bind_run, call_run.
  destruct (ext_fun "graphgallery.asintarr" [index] []) as [i1|e]; [|reflexivity].
  cbn [self trace]. load "tf".
  rewrite bind_run, getattr_case. cbn [self].
  destruct (d !! "device") as [dev|]; [|reflexivity].
  rewrite bind_run. unfold log at 1. cbn [self trace].
  load "astensors". rewrite bind_run, call_run.
  destruct (ext_fun "graphgallery.astensors" [i1] []) as [i2|e]; [|reflexivity].
  cbn [self trace].
  rewrite bind_run, getattr_case. cbn [self].
  destruct (d !! "model") as [mo|]; [|reflexivity].
  rewrite bind_run. unfold DAGNN.predict_on_batch_of at 1.
  destruct mo as [| | | | | | | | | |m|]; try reflexivity.
  unfold ret at 1. cbv beta iota.
  rewrite bind_run, getattr_case. cbn [self].
  destruct (d !! "x_norm") as [xn|]; [|reflexivity].
  rewrite bind_run, getattr_case. cbn [self].
  destruct (d !! "adj_norm") as [an|]; [|reflexivity].
  rewrite bind_run, predict_on_batch_pure.
  destruct (DAGNN.predict_on_batch m xn an i2 (World ∅ [])) as [[l|e] w0];
    cbn [fst]; [|reflexivity].
  load "tf". reflexivity.
Qed.

(** C5.  Two calls of [predict] on the same index, in two states of the
    instance that hold the same model (layers, weights and [K]), the same
    adjacency operator and the same features, return the same logits (or
    fail alike): nothing else in [self], and nothing in the history of
    earlier calls, takes part in the result.  The states are compared after
    the check of the base class, which must come out alike in both. *)
Theorem predict_deterministic index w1 w2 :
  fst (ext_method "predict" [index] [] (self w1))
  = fst (ext_method "predict" [index] [] (self w2)) →
  snd (ext_method "predict" [index] [] (self w1)) !! "model"
  = snd (ext_method "predict" [index] [] (self w2)) !! "model" →
  snd (ext_method "predict" [index] [] (self w1)) !! "adj_norm"
  = snd (ext_method "predict" [index] [] (self w2)) !! "adj_norm" →
  snd (ext_method "predict" [index] [] (self w1)) !! "x_norm"
  = snd (ext_method "predict" [index] [] (self w2)) !! "x_norm" →
  snd (ext_method "predict" [index] [] (self w1)) !! "device"
  = snd (ext_method "predict" [index] [] (self w2)) !! "device" →
  fst (DAGNN.predict ext_fun ext_method index w1)
  = fst (DAGNN.predict ext_fun ext_method index w2).
Proof.
  intros Hr Hm Ha Hx Hd. destruct predict_reads as [F HF].
  rewrite !HF, Hr, Hm, Ha, Hx, Hd. reflexivity.
Qed.

(** X16.  [predict] assigns nothing, so a second call right after a first
    one returns what the first returned, when the check of the base class
    leaves [self] as it is. *)
Corollary predict_twice index w :
  (∀ d, ext_method "predict" [index] [] d
        = (fst (ext_method "predict" [index] [] d), d)) →
  fst (DAGNN.predict ext_fun ext_method index
         (snd (DAGNN.predict ext_fun ext_method index w)))
  = fst (DAGNN.predict ext_fun ext_method index w).
Proof.
  intros Hro. destruct predict_reads as [F HF].
  rewrite !HF, !predict_self.
  rewrite (Hro (self w)). cbn [fst snd]. rewrite (Hro (self w)). reflexivity.
Qed.

End Methods.

(** ** The methods on concrete inputs *)

Lemma DAGNN_init_raises_NameError_witness :
  fst (DAGNN.__init__ Sample.ext_fun Sample.ext_method
         Sample.graph (VFloat (-0.5)%float) VNone (VInt 10)
         (VStr "cpu:0") VNone VNone [] Sample.fresh)
  = Raise (NameError "adj").
Proof.
  apply (proj2 (proj2 (DAGNN_init_raises_NameError
                         Sample.ext_fun Sample.ext_method
                         Sample.graph (VFloat (-0.5)%float) VNone (VInt 10)
                         (VStr "cpu:0") VNone VNone [] Sample.fresh)) VNone).
  reflexivity.
Defined.

Lemma build_raises_NameError_witness :
  fst (DAGNN.build Sample.ext_fun Sample.init_kernel
         [64%Z] ["relu"] [0.5%float] [Sample.l2_default] Sample.lr_default false
         Sample.fresh)
  = Raise (NameError "set_equal_in_length").
Proof.
  refine (proj2 (proj2 (proj2 (build_raises_NameError
                         Sample.ext_fun Sample.init_kernel
                         [64%Z] ["relu"] [0.5%float] [Sample.l2_default]
                         Sample.lr_default false Sample.fresh))) _ _).
  reflexivity.
Defined.

(** C6.  [build] with configuration lists of lengths 2, 3, 1 and 1, and
    [build] with its defaults, both stop at line 78 with [NameError]: no
    list is broadcast and no length is compared. *)
Theorem build_mismatched_lists_NameError :
  fst (DAGNN.build Sample.ext_fun Sample.init_kernel
         [64%Z; 32%Z] ["relu"; "relu"; "relu"] [0.5%float] [Sample.l2_default]
         Sample.lr_default false Sample.fresh)
  = Raise (NameError "set_equal_in_length")
  ∧ fst (DAGNN.build Sample.ext_fun Sample.init_kernel
           [64%Z] ["relu"] [0.5%float] [Sample.l2_default]
           Sample.lr_default false Sample.fresh)
    = Raise (NameError "set_equal_in_length").
Proof. rewrite !build_run. split; reflexivity. Qed.



Lemma preprocess_falsy_norm_adj_skips_normalization_witness :
  fst (DAGNN.preprocess Sample.ext_fun Sample.ext_method
         (VMatrix Layers.eye2) (VMatrix Sample.features)
         (Sample.configured (VFloat 0%float) VNone)) = Ok tt
  ∧ self (snd (DAGNN.preprocess Sample.ext_fun Sample.ext_method
                 (VMatrix Layers.eye2) (VMatrix Sample.features)
                 (Sample.configured (VFloat 0%float) VNone))) !! "adj_norm"
    = Some (VMatrix Layers.eye2)
  ∧ (∀ args,
       ECall "graphgallery.normalize_adj" args
         ∈ trace (snd (DAGNN.preprocess Sample.ext_fun Sample.ext_method
                         (VMatrix Layers.eye2) (VMatrix Sample.features)
                         (Sample.configured (VFloat 0%float) VNone))) →
       ECall "graphgallery.normalize_adj" args
         ∈ trace (Sample.configured (VFloat 0%float) VNone)).
Proof.
  apply (preprocess_falsy_norm_adj_skips_normalization
           Sample.ext_fun Sample.ext_method
           (VMatrix Layers.eye2) (VMatrix Sample.features)
           (Sample.configured (VFloat 0%float) VNone)
           VNone
           (<["x" := VMatrix Sample.features]>
              (<["adj" := VMatrix Layers.eye2]>
                 (self (Sample.configured (VFloat 0%float) VNone))))
           (VMatrix Layers.eye2) (VMatrix Sample.features)
           (VFloat 0%float) VNone (VMatrix Sample.features) (VStr "cpu:0")
           (VMatrix Sample.features) (VMatrix Layers.eye2)).
  - reflexivity.
  - reflexivity.
  - reflexivity.
  - reflexivity.
  - right. left. reflexivity.
  - reflexivity.
  - reflexivity.
  - reflexivity.
  - reflexivity.
Defined.

(** With the default exponent the adjacency matrix does go through
    [normalize_adj]. *)
Example preprocess_default_norm_adj :
  self (snd (DAGNN.preprocess Sample.ext_fun Sample.ext_method
               (VMatrix Layers.eye2) (VMatrix Sample.features)
               (Sample.configured (VFloat (-0.5)%float) VNone))) !! "adj_norm"
  = Some (VObject "normalized_adj" [VMatrix Layers.eye2; VFloat (-0.5)%float]).
Proof. reflexivity. Qed.

Lemma predict_deterministic_witness :
  fst (DAGNN.predict Sample.ext_fun Sample.ext_method
         (VIndex [1; 0; 1]%Z) Sample.compiled)
  = fst (DAGNN.predict Sample.ext_fun Sample.ext_method
           (VIndex [1; 0; 1]%Z) Sample.compiled').
Proof.
  apply (predict_deterministic Sample.ext_fun Sample.ext_method
           (VIndex [1; 0; 1]%Z) Sample.compiled Sample.compiled');
    reflexivity.
Defined.

(** The call in the statement above does return logits: three rows, one per
    index. *)
Example predict_returns_logits :
  ∃ r0 r1, fst (DAGNN.predict Sample.ext_fun Sample.ext_method
                  (VIndex [1; 0; 1]%Z) Sample.compiled)
           = Ok (VMatrix [r1; r0; r1]).
Proof. eexists _, _. reflexivity. Qed.

(** ** Further properties of the methods *)

Section Coverage.

Variable ext_fun : string → list value → list (string * value) → result value.
Variable ext_method :
  string → list value → list (string * value) →
  gmap string value → result value * gmap string value.
Variable init_kernel : nat → Z → Z → matrix.

(** X1.  An exception of the constructor of the base class leaves
    [DAGNN.__init__] as it is, and none of [norm_adj], [norm_x] and [K] has
    been assigned by then: [self] is what the base class left. *)
Theorem init_base_failure_propagates
    graph norm_adj norm_x K device seed name kwargs w e d :
  ext_method "__init__" [graph]
    ([("device", device); ("seed", seed); ("name", name)] ++ kwargs) (self w)
  = (Raise e, d) →
  fst (DAGNN.__init__ ext_fun ext_method
         graph norm_adj norm_x K device seed name kwargs w) = Raise e
  ∧ self (snd (DAGNN.__init__ ext_fun ext_method
                 graph norm_adj norm_x K device seed name kwargs w)) = d.
Proof.
  intros Hbase. rewrite init_run, Hbase. split; reflexivity.
Qed.

(** X2.  The constructor never reaches [preprocess]: whatever the base class
    does, the only call it makes outside the class is the constructor of the
    base class, and [self.x_norm] and [self.adj_norm] are as that call left
    them; when that call returns, the three hyper-parameters are stored as
    given. *)
Theorem init_never_preprocesses
    graph norm_adj norm_x K device seed name kwargs w :
  trace (snd (DAGNN.__init__ ext_fun ext_method
                graph norm_adj norm_x K device seed name kwargs w))
  = trace w ++ [ECall "SemiSupervisedModel.__init__" [graph]]
  ∧ (∀ attr, attr = "x_norm" ∨ attr = "adj_norm" →
       self (snd (DAGNN.__init__ ext_fun ext_method
                    graph norm_adj norm_x K device seed name kwargs w)) !! attr
       = snd (ext_method "__init__" [graph]
                ([("device", device); ("seed", seed); ("name", name)] ++ kwargs)
                (self w)) !! attr)
  ∧ (∀ r, fst (ext_method "__init__" [graph]
                 ([("device", device); ("seed", seed); ("name", name)] ++ kwargs)
                 (self w)) = Ok r →
       self (snd (DAGNN.__init__ ext_fun ext_method
                    graph norm_adj norm_x K device seed name kwargs w))
         !! "norm_adj" = Some norm_adj
       ∧ self (snd (DAGNN.__init__ ext_fun ext_method
                      graph norm_adj norm_x K device seed name kwargs w))
           !! "norm_x" = Some norm_x).
Proof.
  rewrite init_run.
  destruct (ext_method "__init__" _ _ _) as [[r|e] d]; cbn [fst snd self trace].
  - split; [reflexivity|]. split.
    + intros attr [-> | ->]; rewrite !lookup_insert_ne by discriminate; reflexivity.
    + intros _ _. split.
      * rewrite !lookup_insert_ne by discriminate. apply lookup_insert_eq.
      * rewrite lookup_insert_ne by discriminate. apply lookup_insert_eq.
  - split; [reflexivity|]. split; [reflexivity|]. intros r Hr. discriminate Hr.
Qed.

(** X3.  [build] assigns nothing: [self] after the call is [self] before it,
    so [self.model] is never set, and the only call it makes outside the
    class is the one to [Bunch]. *)
Theorem build_leaves_self_unchanged
    hiddens activations dropouts l2_norms lr use_bias w :
  self (snd (DAGNN.build ext_fun init_kernel
               hiddens activations dropouts l2_norms lr use_bias w)) = self w
  ∧ trace (snd (DAGNN.build ext_fun init_kernel
                  hiddens activations dropouts l2_norms lr use_bias w))
    = trace w ++ [ECall "graphgallery.Bunch" []].
Proof.
  rewrite build_run.
  destruct (ext_fun "graphgallery.Bunch" _ _); split; reflexivity.
Qed.

(** [preprocess], statement by statement, when every collaborator
    returns. *)
Lemma preprocess_run adj x w r d1 raw x0 na nx adj1 x1 dev xn an :
  ext_method "preprocess" [adj; x] [] (self w) = (Ok r, d1) →
  d1 !! "adj" = Some raw →
  d1 !! "x" = Some x0 →
  d1 !! "norm_adj" = Some na →
  (if truthy na then ext_fun "graphgallery.normalize_adj" [raw; na] []
   else Ok raw) = Ok adj1 →
  d1 !! "norm_x" = Some nx →
  (if truthy nx then ext_fun "graphgallery.normalize_x" [x0] [("norm", nx)]
   else Ok x0) = Ok x1 →
  d1 !! "device" = Some dev →
  ext_fun "graphgallery.astensors" [VList [x1; adj1]] [] = Ok (VList [xn; an]) →
  DAGNN.preprocess ext_fun ext_method adj x w =
  (Ok tt,
   World (<["adj_norm" := an]> (<["x_norm" := xn]> d1))
         (trace w ++ [ECall "SemiSupervisedModel.preprocess" [adj; x]]
                  ++ (if truthy na
                      then [ECall "graphgallery.normalize_adj" [raw; na]] else [])
                  ++ (if truthy nx
                      then [ECall "graphgallery.normalize_x" [x0]] else [])
                  ++ [ECall "tensorflow.device" [dev];
                      ECall "graphgallery.astensors" [VList [x1; adj1]]])).
Proof.
  intros Hbase Hadj Hx Hna Hadj1 Hnx Hx1 Hdev Hts.
  unfold DAGNN.preprocess.
  rewrite bind_run, (call_super_run ext_method), Hbase. cbn [fst snd].
  attr "adj" raw. attr "x" x0. attr "norm_adj" na.
  assert (∀ (k : value → M unit) tr,
    bind (if truthy na
          then let! f := load_global "normalize_adj" in
               let! rate := getattr "norm_adj" in
               DAGNN.call ext_fun f [raw; rate] []
          else ret raw) k (World d1 tr)
    = k adj1 (World d1 (tr ++ (if truthy na
                 then [ECall "graphgallery.normalize_adj" [raw; na]] else []))))
    as Hstep_adj.
  { intros k tr. rewrite bind_run. destruct (truthy na).
    - load "normalize_adj". attr "norm_adj" na.
      rewrite (call_run ext_fun), Hadj1. reflexivity.
    - injection Hadj1 as <-. unfold ret. rewrite app_nil_r. reflexivity. }
  rewrite Hstep_adj. clear Hstep_adj.
  attr "norm_x" nx.
  assert (∀ (k : value → M unit) tr,
    bind (if truthy nx
          then let! f := load_global "normalize_x" in
               let! norm := getattr "norm_x" in
               DAGNN.call ext_fun f [x0] [("norm", norm)]
          else ret x0) k (World d1 tr)
    = k x1 (World d1 (tr ++ (if truthy nx
                 then [ECall "graphgallery.normalize_x" [x0]] else []))))
    as Hstep_x.
  { intros k tr. rewrite bind_run. destruct (truthy nx).
    - load "normalize_x". attr "norm_x" nx.
      rewrite (call_run ext_fun), Hx1. reflexivity.
    - injection Hx1 as <-. unfold ret. rewrite app_nil_r. reflexivity. }
  rewrite Hstep_x. clear Hstep_x.
  load "tf". attr "device" dev.
  rewrite bind_run. unfold log at 1. cbn [self trace].
  load "astensors". rewrite bind_run, (call_run ext_fun), Hts. cbn [self trace].
  unfold DAGNN.unpack2. rewrite bind_run. unfold ret at 1. cbv beta iota.
  rewrite bind_run. unfold setattr. cbn [self trace].
  rewrite <- !app_assoc. reflexivity.
Qed.

(** *** Computations that assign no attribute *)

Lemma keeps_ret {A} (a : A) w : self (snd (ret a w)) = self w.
Proof. reflexivity. Qed.

Lemma keeps_raise {A} e w : self (snd (@raise A e w)) = self w.
Proof. reflexivity. Qed.

Lemma keeps_log ev w : self (snd (log ev w)) = self w.
Proof. reflexivity. Qed.

Lemma keeps_getattr name w : self (snd (getattr name w)) = self w.
Proof. unfold getattr. destruct (self w !! name); reflexivity. Qed.

Lemma keeps_load_global name w : self (snd (load_global name w)) = self w.
Proof.
  unfold load_global. destruct (module_globals !! name); [reflexivity|].
  destruct (bool_decide _); reflexivity.
Qed.

Lemma keeps_call f args kwargs w :
  self (snd (DAGNN.call ext_fun f args kwargs w)) = self w.
Proof. destruct f; reflexivity. Qed.

Lemma keeps_bind {A B} (c : M A) (k : A → M B) :
  (∀ w, self (snd (c w)) = self w) →
  (∀ a w, self (snd (k a w)) = self w) →
  ∀ w, self (snd (bind c k w)) = self w.
Proof.
  intros Hc Hk w. rewrite bind_run. specialize (Hc w).
  destruct (c w) as [[a|e] w']; cbn [snd] in *.
  - rewrite Hk. exact Hc.
  - exact Hc.
Qed.

Lemma keeps_unpack2 v w : self (snd (DAGNN.unpack2 v w)) = self w.
Proof.
  unfold DAGNN.unpack2.
  destruct v as [| | | | |[|a [|b [|c vs]]]| | | | | |]; reflexivity.
Qed.

Lemma keeps_getitem a index w : self (snd (DAGNN.getitem a index w)) = self w.
Proof.
  unfold DAGNN.getitem. destruct a; try reflexivity.
  destruct index; try reflexivity.
  destruct (DAGNN.take _ _); reflexivity.
Qed.

Lemma keeps_if {A} (b : bool) (c1 c2 : M A) :
  (∀ w, self (snd (c1 w)) = self w) →
  (∀ w, self (snd (c2 w)) = self w) →
  ∀ w, self (snd ((if b then c1 else c2) w)) = self w.
Proof. destruct b; intros H1 H2; assumption. Qed.

(** Closes a goal [∀ w, self (snd (c w)) = self w] for a computation [c]
    put together from the steps above. *)
Ltac keeps :=
  repeat first
    [ apply keeps_bind; [|intros ?]
    | apply keeps_if
    | intros ?; first
        [ apply keeps_ret | apply keeps_raise | apply keeps_log
        | apply keeps_getattr | apply keeps_load_global | apply keeps_call
        | apply keeps_unpack2 | apply keeps_getitem ] ].

(** The part of [preprocess] that comes after the call of the base class
    either fails before its first assignment or makes both assignments. *)
Lemma bind_keeps_then_assigns {A} (c : M A) (k : A → M unit) :
  (∀ w, self (snd (c w)) = self w) →
  (∀ a w,
     match fst (k a w) with
     | Raise _ => self (snd (k a w)) = self w
     | Ok _ => ∃ xn an, self (snd (k a w))
                        = <["adj_norm" := an]> (<["x_norm" := xn]> (self w))
     end) →
  ∀ w,
    match fst (bind c k w) with
    | Raise _ => self (snd (bind c k w)) = self w
    | Ok _ => ∃ xn an, self (snd (bind c k w))
                       = <["adj_norm" := an]> (<["x_norm" := xn]> (self w))
    end.
Proof.
  intros Hc Hk w. rewrite bind_run. specialize (Hc w).
  destruct (c w) as [[a|e] w']; cbn [fst snd] in *.
  - specialize (Hk a w'). rewrite Hc in Hk. exact Hk.
  - exact Hc.
Qed.

Lemma preprocess_self adj x w :
  match fst (DAGNN.preprocess ext_fun ext_method adj x w) with
  | Raise _ =>
      self (snd (DAGNN.preprocess ext_fun ext_method adj x w))
      = snd (ext_method "preprocess" [adj; x] [] (self w))
  | Ok _ =>
      ∃ xn an,
        self (snd (DAGNN.preprocess ext_fun ext_method adj x w))
        = <["adj_norm" := an]>
            (<["x_norm" := xn]> (snd (ext_method "preprocess" [adj; x] [] (self w))))
  end.
Proof.
  unfold DAGNN.preprocess. rewrite bind_run, (call_super_run ext_method).
  destruct (ext_method "preprocess" [adj; x] [] (self w)) as [[r|e] d1];
    cbn [fst snd]; [|reflexivity].
  set (w0 := World d1 _). change d1 with (self w0).
  clearbody w0. revert w0.
  repeat (apply bind_keeps_then_assigns; [keeps|intros ?]).
  match goal with p : value * value |- _ => destruct p as [xn an] end.
  intros w0. rewrite bind_run. unfold setattr. cbn [fst snd self]. eauto.
Qed.

(** X4.  [preprocess] is all or nothing on [self]: when it raises, at
    whatever statement, [self] is exactly what the base class left, so
    neither [self.x_norm] nor [self.adj_norm] has been assigned. *)
Theorem preprocess_failure_assigns_nothing adj x w e :
  fst (DAGNN.preprocess ext_fun ext_method adj x w) = Raise e →
  self (snd (DAGNN.preprocess ext_fun ext_method adj x w))
  = snd (ext_method "preprocess" [adj; x] [] (self w)).
Proof.
  intros Hfail. pose proof (preprocess_self adj x w) as H.
  rewrite Hfail in H. exact H.
Qed.

(** X5.  When [preprocess] returns, [self.x_norm] and [self.adj_norm] are
    set and every other attribute is what the base class left: the raw
    [self.adj] and [self.x] and the hyper-parameters are not overwritten. *)
Theorem preprocess_assigns_only_x_norm_and_adj_norm adj x w u :
  fst (DAGNN.preprocess ext_fun ext_method adj x w) = Ok u →
  is_Some (self (snd (DAGNN.preprocess ext_fun ext_method adj x w)) !! "x_norm")
  ∧ is_Some (self (snd (DAGNN.preprocess ext_fun ext_method adj x w)) !! "adj_norm")
  ∧ (∀ attr, attr ≠ "x_norm" → attr ≠ "adj_norm" →
       self (snd (DAGNN.preprocess ext_fun ext_method adj x w)) !! attr
       = snd (ext_method "preprocess" [adj; x] [] (self w)) !! attr).
Proof.
  intros Hok. pose proof (preprocess_self adj x w) as H.
  rewrite Hok in H. destruct H as (xn & an & ->).
  split; [|split].
  - rewrite lookup_insert_ne by discriminate. rewrite lookup_insert_eq. eauto.
  - rewrite lookup_insert_eq. eauto.
  - intros attr Hx Ha. rewrite !lookup_insert_ne by congruence. reflexivity.
Qed.

(** X6.  When [self.norm_adj] is true (the default [-0.5], any non-zero
    exponent), [normalize_adj] is called once, on the adjacency matrix the
    base class stored and that exponent, before [normalize_x] and
    [astensors]; [astensors] receives its result, and the conversion of that
    result is stored in [self.adj_norm]. *)
Theorem preprocess_truthy_norm_adj_normalizes
    adj x w r d1 raw x0 na nx adj1 x1 dev xn an :
  ext_method "preprocess" [adj; x] [] (self w) = (Ok r, d1) →
  d1 !! "adj" = Some raw →
  d1 !! "x" = Some x0 →
  d1 !! "norm_adj" = Some na →
  truthy na = true →
  ext_fun "graphgallery.normalize_adj" [raw; na] [] = Ok adj1 →
  d1 !! "norm_x" = Some nx →
  (if truthy nx then ext_fun "graphgallery.normalize_x" [x0] [("norm", nx)]
   else Ok x0) = Ok x1 →
  d1 !! "device" = Some dev →
  ext_fun "graphgallery.astensors" [VList [x1; adj1]] [] = Ok (VList [xn; an]) →
  fst (DAGNN.preprocess ext_fun ext_method adj x w) = Ok tt
  ∧ self (snd (DAGNN.preprocess ext_fun ext_method adj x w)) !! "adj_norm" = Some an
  ∧ trace (snd (DAGNN.preprocess ext_fun ext_method adj x w))
    = trace w
      ++ [ECall "SemiSupervisedModel.preprocess" [adj; x];
          ECall "graphgallery.normalize_adj" [raw; na]]
      ++ (if truthy nx then [ECall "graphgallery.normalize_x" [x0]] else [])
      ++ [ECall "tensorflow.device" [dev];
          ECall "graphgallery.astensors" [VList [x1; adj1]]].
Proof.
  intros Hbase Hadj Hx Hna Htrue Hadj1 Hnx Hx1 Hdev Hts.
  rewrite (preprocess_run adj x w r d1 raw x0 na nx adj1 x1 dev xn an)
    by (try assumption; rewrite Htrue; assumption).
  cbn [fst snd self trace]. rewrite Htrue.
  split; [reflexivity|]. split; [apply lookup_insert_eq|reflexivity].
Qed.

(** X7.  When [self.norm_x] is false ([None], the default, or an empty
    string), [normalize_x] is not called: [astensors] receives the attribute
    matrix the base class stored in [self.x], and its conversion is stored
    in [self.x_norm]. *)
Theorem preprocess_falsy_norm_x_keeps_features
    adj x w r d1 raw x0 na nx adj1 dev xn an :
  ext_method "preprocess" [adj; x] [] (self w) = (Ok r, d1) →
  d1 !! "adj" = Some raw →
  d1 !! "x" = Some x0 →
  d1 !! "norm_adj" = Some na →
  (if truthy na then ext_fun "graphgallery.normalize_adj" [raw; na] []
   else Ok raw) = Ok adj1 →
  d1 !! "norm_x" = Some nx →
  truthy nx = false →
  d1 !! "device" = Some dev →
  ext_fun "graphgallery.astensors" [VList [x0; adj1]] [] = Ok (VList [xn; an]) →
  fst (DAGNN.preprocess ext_fun ext_method adj x w) = Ok tt
  ∧ self (snd (DAGNN.preprocess ext_fun ext_method adj x w)) !! "x_norm" = Some xn
  ∧ (∀ args,
       ECall "graphgallery.normalize_x" args
         ∈ trace (snd (DAGNN.preprocess ext_fun ext_method adj x w)) →
       ECall "graphgallery.normalize_x" args ∈ trace w).
Proof.
  intros Hbase Hadj Hx Hna Hadj1 Hnx Hfalse Hdev Hts.
  rewrite (preprocess_run adj x w r d1 raw x0 na nx adj1 x0 dev xn an)
    by (try assumption; rewrite Hfalse; reflexivity).
  cbn [fst snd self trace]. rewrite Hfalse.
  split; [reflexivity|]. split.
  { rewrite lookup_insert_ne by discriminate. apply lookup_insert_eq. }
  intros args Hin.
  apply elem_of_app in Hin as [Hin|Hin]; [exact Hin|].
  apply elem_of_app in Hin as [Hin|Hin].
  { apply list_elem_of_singleton in Hin. discriminate Hin. }
  apply elem_of_app in Hin as [Hin|Hin].
  { destruct (truthy na).
    - apply list_elem_of_singleton in Hin. discriminate Hin.
    - apply elem_of_nil in Hin. destruct Hin. }
  apply elem_of_app in Hin as [Hin|Hin].
  { apply elem_of_nil in Hin. destruct Hin. }
  apply elem_of_cons in Hin as [Hin|Hin]; [discriminate Hin|].
  apply list_elem_of_singleton in Hin. discriminate Hin.
Qed.

(** *** The layer-assembly block of [build] *)

(** The block is the end of [build]. *)
Lemma build_ends_with_build_graph hiddens activations dropouts l2_norms lr use_bias :
  DAGNN.build ext_fun init_kernel hiddens activations dropouts l2_norms lr use_bias
  = (let! _ := load_global "locals" in
     let! local_paras :=
       (match DAGNN.dict_pop "self"
                [ ("self", VName "self");
                  ("hiddens", VList (map VInt hiddens));
                  ("activations", VList (map VStr activations));
                  ("dropouts", VList (map VFloat dropouts));
                  ("l2_norms", VList (map VFloat l2_norms));
                  ("lr", VFloat lr);
                  ("use_bias", VBool use_bias) ] with
        | Some d => ret d
        | None => raise (KeyError "self")
        end) in
     let! f := load_global "Bunch" in
     let! paras := DAGNN.call ext_fun f [] local_paras in
     let! f := load_global "set_equal_in_length" in
     let! r := DAGNN.call ext_fun f
                 [ VList (map VInt hiddens); VList (map VStr activations);
                   VList (map VFloat dropouts); VList (map VFloat l2_norms) ] [] in
     let! (vh, va, vd, vl) := DAGNN.unpack4 r in
     let! f := load_global "Bunch" in
     let! b := DAGNN.call ext_fun f []
                 [ ("hiddens", vh); ("activations", va);
                   ("dropouts", vd); ("l2_norms", vl) ] in
     let! paras := DAGNN.call_method_of ext_fun "graphgallery.Bunch.update" paras [b] in
     let! p := getattr "paras" in
     let! p := DAGNN.call_method_of ext_fun "graphgallery.Bunch.update" p [paras] in
     let! _ := setattr "paras" p in
     let! p := getattr "model_paras" in
     let! p := DAGNN.call_method_of ext_fun "graphgallery.Bunch.update" p [paras] in
     let! _ := setattr "model_paras" p in
     DAGNN.build_graph ext_fun init_kernel vh va vd vl lr use_bias).
Proof. reflexivity. Qed.

Lemma as_list_map {A} (conv : value → option A) (inj : A → value) (l : list A) :
  (∀ a, conv (inj a) = Some a) → DAGNN.as_list conv (map inj l) = Some l.
Proof.
  intros Hconv. induction l as [|a l IH]; [reflexivity|].
  cbn. rewrite Hconv, IH. reflexivity.
Qed.

Lemma as_list_of_map {A} (conv : value → option A) (inj : A → value) (l : list A) w :
  (∀ a, conv (inj a) = Some a) →
  DAGNN.as_list_of conv (VList (map inj l)) w = (Ok l, w).
Proof.
  intros Hconv. unfold DAGNN.as_list_of.
  rewrite (as_list_map conv inj l Hconv). reflexivity.
Qed.

Lemma zip4_length hs acts ds ls :
  length (DAGNN.zip4 hs acts ds ls)
  = Nat.min (Nat.min (length hs) (length acts)) (Nat.min (length ds) (length ls)).
Proof.
  revert acts ds ls. induction hs as [|h hs IH]; intros acts ds ls.
  - reflexivity.
  - destruct acts as [|a acts]; [cbn; lia|].
    destruct ds as [|d ds]; [cbn; lia|].
    destruct ls as [|l ls]; [cbn; lia|].
    cbn. rewrite IH. lia.
Qed.

Lemma zip4_lookup hs acts ds ls i h a d l :
  hs !! i = Some h → acts !! i = Some a → ds !! i = Some d → ls !! i = Some l →
  DAGNN.zip4 hs acts ds ls !! i = Some (h, a, d, l).
Proof.
  revert hs acts ds ls.
  induction i as [|i IH]; intros [|h' hs] [|a' acts] [|d' ds] [|l' ls];
    cbn; try discriminate; intros Hh Ha Hd Hl.
  - congruence.
  - apply IH; assumption.
Qed.

Lemma zip4_lookup_inv hs acts ds ls i h a d l :
  DAGNN.zip4 hs acts ds ls !! i = Some (h, a, d, l) →
  hs !! i = Some h ∧ acts !! i = Some a ∧ ds !! i = Some d ∧ ls !! i = Some l.
Proof.
  revert hs acts ds ls.
  induction i as [|i IH]; intros [|h' hs] [|a' acts] [|d' ds] [|l' ls];
    cbn; try discriminate; intros H.
  - injection H as -> -> -> ->. repeat split.
  - apply IH. exact H.
Qed.

Lemma log_run ev w : log ev w = (Ok tt, World (self w) (trace w ++ [ev])).
Proof. reflexivity. Qed.

Lemma as_int_run n w : DAGNN.as_int (VInt n) w = (Ok n, w).
Proof. reflexivity. Qed.

Lemma ret_run {A} (a : A) w : ret a w = (Ok a, w).
Proof. reflexivity. Qed.

Lemma raise_run {A} e w : @raise A e w = (Raise e, w).
Proof. reflexivity. Qed.

Lemma call_method_of_run qualname obj args w :
  DAGNN.call_method_of ext_fun qualname obj args w =
  (ext_fun qualname (obj :: args) [],
   World (self w) (trace w ++ [ECall qualname (obj :: args)])).
Proof. reflexivity. Qed.

Ltac step_log := rewrite bind_run, log_run; cbv beta iota; cbn [self trace].
Ltac step_int := rewrite bind_run, as_int_run; cbv beta iota.

(** One step of the block: a collaborator is called.  When it raises, the
    goal is closed with the call as the origin of the exception. *)
Ltac from_outside E :=
  cbn [self]; split; [reflexivity | do 3 eexists; exact E].

Ltac outside_call :=
  rewrite ?bind_run;
  first [ rewrite (call_run ext_fun) | rewrite call_method_of_run ];
  let E := fresh "E" in
  match goal with
  | |- context [ext_fun ?q ?args ?kwargs] =>
      destruct (ext_fun q args kwargs) as [?|?] eqn:E
  end;
  cbv beta iota; cbn [self trace];
  [ | from_outside E ].

Ltac regularizer :=
  unfold DAGNN.l2_regularizer; rewrite bind_run; load "regularizers";
  outside_call.

Ltac layer_call :=
  unfold DAGNN.apply_new at 1; outside_call; outside_call;
  rewrite ?bind_run, log_run; cbv beta iota; cbn [self trace].

(** The loop of lines 92-94.  An exception can only come from a
    collaborator; otherwise two layers per item are appended, in order. *)
Lemma encoder_cases use_bias cfg :
  ∀ pos width h w,
    match DAGNN.encoder ext_fun init_kernel use_bias cfg pos width h w with
    | (Raise e, w') =>
        self w' = self w ∧ ∃ q args kwargs, ext_fun q args kwargs = Raise e
    | (Ok (pos', _, h'), w') =>
        self w' = self w
        ∧ pos' = (pos + length cfg)%nat
        ∧ ∃ enc,
            h' = h ++ enc
            ∧ length enc = (2 * length cfg)%nat
            ∧ (∀ i hid a d l, cfg !! i = Some (hid, a, d, l) →
                 ∃ kernel bias,
                   enc !! (2 * i)%nat = Some (Dense hid use_bias a l kernel bias)
                   ∧ enc !! (2 * i + 1)%nat = Some (Dropout d))
    end.
Proof.
  induction cfg as [|[[[hid a] d] l] cfg IH]; intros p0 wd0 h w.
  - cbn [DAGNN.encoder]. rewrite ret_run.
    split; [reflexivity|]. split; [cbn; lia|].
    exists []. rewrite app_nil_r. split; [reflexivity|]. split; [reflexivity|].
    intros i ? ? ? ? Hi. discriminate Hi.
  - cbn [DAGNN.encoder]. load "Dense". regularizer. layer_call.
    load "Dropout". layer_call.
    match goal with
    | |- context [DAGNN.encoder _ _ _ _ ?p ?wd ?h' ?w'] =>
        specialize (IH p wd h' w');
        destruct (DAGNN.encoder ext_fun init_kernel use_bias cfg p wd h' w')
          as [[[[pos' width'] h'']|e] w'']
    end.
    + destruct IH as (Hself & Hpos & enc & -> & Hlen & Hitems).
      cbn [self] in Hself. split; [exact Hself|]. split; [cbn [length]; lia|].
      eexists (_ :: _ :: enc). split; [|split].
      * rewrite <- !app_assoc. reflexivity.
      * cbn [length]. lia.
      * intros [|i] hid' a' d' l' Hi.
        -- cbn in Hi. injection Hi as <- <- <- <-.
           eexists _, _. split; reflexivity.
        -- cbn [lookup list_lookup] in Hi.
           destruct (Hitems i hid' a' d' l' Hi) as (kernel & bias & H0 & H1).
           exists kernel, bias.
           replace (2 * S i)%nat with (S (S (2 * i))) by lia.
           replace (S (S (2 * i)) + 1)%nat with (S (S (2 * i + 1))) by lia.
           split; assumption.
    + destruct IH as (Hself & Hout). cbn [self] in Hself.
      split; [exact Hself | exact Hout].
Qed.

Ltac build_graph_head dev na fx ix :=
  unfold DAGNN.build_graph;
  load "tf"; attr "device" dev; step_log;
  load "Input"; attr "n_attrs" (VInt na); attr "floatx" fx; step_int; step_log;
  load "Input"; attr "floatx" fx; step_log;
  load "Input"; attr "intx" ix; step_log;
  load "zip";
  rewrite bind_run, (as_list_of_map DAGNN.int_of VInt) by reflexivity;
  rewrite bind_run, (as_list_of_map DAGNN.str_of VStr) by reflexivity;
  rewrite bind_run, (as_list_of_map DAGNN.float_of VFloat) by reflexivity;
  rewrite bind_run, (as_list_of_map DAGNN.float_of VFloat) by reflexivity;
  cbv beta iota; rewrite bind_run.

(** The block, statement by statement, when the loop runs at least once:
    either a collaborator raises and nothing is assigned, or the model is
    stored with the layers of the loop followed by the four output layers. *)
Lemma build_graph_cases hs acts ds ls lr use_bias w dev na fx ix nc K hid a d l :
  self w !! "device" = Some dev →
  self w !! "n_attrs" = Some (VInt na) →
  self w !! "floatx" = Some fx →
  self w !! "intx" = Some ix →
  self w !! "n_classes" = Some (VInt nc) →
  self w !! "K" = Some (VInt K) →
  last (DAGNN.zip4 hs acts ds ls) = Some (hid, a, d, l) →
  match DAGNN.build_graph ext_fun init_kernel
          (VList (map VInt hs)) (VList (map VStr acts))
          (VList (map VFloat ds)) (VList (map VFloat ls)) lr use_bias w with
  | (Raise e, w') =>
      self w' = self w ∧ ∃ q args kwargs, ext_fun q args kwargs = Raise e
  | (Ok _, w') =>
      ∃ enc kernel bias W,
        self w'
        = <["model" :=
              VModel (KerasModel na
                        (enc ++ [Dense nc use_bias a l kernel bias;
                                 Dropout d;
                                 PropConvolution K use_bias "sigmoid" l W 0%R;
                                 Gather])
                        lr)]> (self w)
        ∧ length enc = (2 * length (DAGNN.zip4 hs acts ds ls))%nat
        ∧ (∀ i hid a d l, DAGNN.zip4 hs acts ds ls !! i = Some (hid, a, d, l) →
             ∃ kernel bias,
               enc !! (2 * i)%nat = Some (Dense hid use_bias a l kernel bias)
               ∧ enc !! (2 * i + 1)%nat = Some (Dropout d))
  end.
Proof.
  intros Hdev Hna Hfx Hix Hnc HK Hlast.
  build_graph_head dev na fx ix.
  match goal with
  | |- context [DAGNN.encoder _ _ _ ?cfg ?p ?wd ?h' ?w'] =>
      pose proof (encoder_cases use_bias cfg p wd h' w') as Henc;
      destruct (DAGNN.encoder ext_fun init_kernel use_bias cfg p wd h' w')
        as [[[[pos' width'] h'']|e] [d'' tr'']]
  end; cbn [self] in Henc; cbv beta iota.
  - destruct Henc as (-> & _ & enc & -> & Hlen & Hitems).
    rewrite app_nil_l.
    load "Dense". attr "n_classes" (VInt nc).
    rewrite Hlast. rewrite bind_run, ret_run. cbv beta iota.
    regularizer. step_int. layer_call.
    load "Dropout". layer_call.
    load "PropConvolution". attr "K" (VInt K). regularizer. step_int. layer_call.
    load "Gather". layer_call.
    load "Model". outside_call. step_log.
    load "SparseCategoricalCrossentropy". outside_call. step_log.
    load "Adam". outside_call. step_log.
    outside_call.
    unfold setattr. cbn [self trace].
    exists enc. eexists _, _, _.
    split; [|split; assumption].
    rewrite <- !app_assoc. reflexivity.
  - destruct Henc as (-> & Hout). split; [reflexivity | exact Hout].
Qed.

Lemma zip4_nil hs acts ds ls :
  hs = [] ∨ acts = [] ∨ ds = [] ∨ ls = [] → DAGNN.zip4 hs acts ds ls = [].
Proof.
  intros [-> | [-> | [-> | ->]]].
  - reflexivity.
  - destruct hs; reflexivity.
  - destruct hs; [reflexivity|]. destruct acts; reflexivity.
  - destruct hs; [reflexivity|]. destruct acts; [reflexivity|].
    destruct ds; reflexivity.
Qed.

Lemma zip4_last hs acts ds ls :
  let n := Nat.min (Nat.min (length hs) (length acts))
                   (Nat.min (length ds) (length ls)) in
  (0 < n)%nat →
  ∃ hid a d l,
    last (DAGNN.zip4 hs acts ds ls) = Some (hid, a, d, l)
    ∧ hs !! (n - 1)%nat = Some hid ∧ acts !! (n - 1)%nat = Some a
    ∧ ds !! (n - 1)%nat = Some d ∧ ls !! (n - 1)%nat = Some l.
Proof.
  intros n Hn. pose proof (zip4_length hs acts ds ls) as Hlen. fold n in Hlen.
  rewrite last_lookup, Hlen.
  destruct (lookup_lt_is_Some_2 (DAGNN.zip4 hs acts ds ls) (Nat.pred n))
    as [[[[hid a] d] l] Hitem]; [lia|].
  exists hid, a, d, l. split; [exact Hitem|].
  replace (n - 1)%nat with (Nat.pred n) by lia.
  apply zip4_lookup_inv. exact Hitem.
Qed.

(** X8.  When one of the four lists is empty the loop of lines 92-94 does
    not run, its variables stay unbound, and line 96 raises
    [UnboundLocalError] for [activation]; [self.model] is not assigned. *)
Theorem build_graph_empty_configuration
    hs acts ds ls lr use_bias w dev na fx ix vnc :
  self w !! "device" = Some dev →
  self w !! "n_attrs" = Some (VInt na) →
  self w !! "floatx" = Some fx →
  self w !! "intx" = Some ix →
  self w !! "n_classes" = Some vnc →
  hs = [] ∨ acts = [] ∨ ds = [] ∨ ls = [] →
  fst (DAGNN.build_graph ext_fun init_kernel
         (VList (map VInt hs)) (VList (map VStr acts))
         (VList (map VFloat ds)) (VList (map VFloat ls)) lr use_bias w)
  = Raise (UnboundLocalError "activation")
  ∧ self (snd (DAGNN.build_graph ext_fun init_kernel
                 (VList (map VInt hs)) (VList (map VStr acts))
                 (VList (map VFloat ds)) (VList (map VFloat ls)) lr use_bias w))
    = self w.
Proof.
  intros Hdev Hna Hfx Hix Hnc Hempty.
  build_graph_head dev na fx ix.
  rewrite (zip4_nil hs acts ds ls Hempty).
  cbn [DAGNN.encoder]. rewrite ret_run. cbv beta iota.
  load "Dense". attr "n_classes" vnc.
  cbn [last]. rewrite bind_run, raise_run. cbv beta iota.
  split; reflexivity.
Qed.

(** X9.  Lists of different lengths are not an error of the block itself:
    the loop runs as many times as the shortest list is long and the
    further entries of the longer lists are ignored.  Either the block
    returns, and then item [i] of the lists has given the layers [2i] and
    [2i+1] of the model, a [Dense] of width [hiddens[i]] with
    [activations[i]] and [l2_norms[i]] and a [Dropout] of rate
    [dropouts[i]], four more layers follow, and [self.model] is the only
    attribute assigned; or one of the Keras and graphgallery callables of
    lines 93-104 has raised, that exception is the one the block raises, and
    no attribute is assigned. *)
Theorem build_graph_truncates_to_shortest
    hs acts ds ls lr use_bias w dev na fx ix nc K :
  self w !! "device" = Some dev →
  self w !! "n_attrs" = Some (VInt na) →
  self w !! "floatx" = Some fx →
  self w !! "intx" = Some ix →
  self w !! "n_classes" = Some (VInt nc) →
  self w !! "K" = Some (VInt K) →
  (0 < Nat.min (Nat.min (length hs) (length acts))
               (Nat.min (length ds) (length ls)))%nat →
  let run := DAGNN.build_graph ext_fun init_kernel
               (VList (map VInt hs)) (VList (map VStr acts))
               (VList (map VFloat ds)) (VList (map VFloat ls)) lr use_bias w in
  (∃ layers,
     fst run = Ok tt
     ∧ self (snd run) = <["model" := VModel (KerasModel na layers lr)]> (self w)
     ∧ length layers
       = (2 * Nat.min (Nat.min (length hs) (length acts))
                      (Nat.min (length ds) (length ls)) + 4)%nat
     ∧ (∀ i hid a d l,
          hs !! i = Some hid → acts !! i = Some a →
          ds !! i = Some d → ls !! i = Some l →
          ∃ kernel bias,
            layers !! (2 * i)%nat = Some (Dense hid use_bias a l kernel bias)
            ∧ layers !! (2 * i + 1)%nat = Some (Dropout d)))
  ∨ (∃ e q args kwargs,
       fst run = Raise e
       ∧ ext_fun q args kwargs = Raise e
       ∧ self (snd run) = self w).
Proof.
  intros Hdev Hna Hfx Hix Hnc HK Hn run.
  destruct (zip4_last hs acts ds ls Hn) as (hid & a & d & l & Hlast & _).
  pose proof (build_graph_cases hs acts ds ls lr use_bias w dev na fx ix nc K
                hid a d l Hdev Hna Hfx Hix Hnc HK Hlast) as Hrun.
  fold run in Hrun. destruct run as [[[]|e] w'].
  - destruct Hrun as (enc & kernel & bias & W & Hself & Hlen & Hitems).
    rewrite zip4_length in Hlen.
    left. eexists. cbn [fst snd].
    split; [reflexivity|]. split; [exact Hself|]. split.
    + rewrite length_app, Hlen. cbn [length]. lia.
    + intros i hid' a' d' l' Hh Ha Hd Hl.
      destruct (Hitems i hid' a' d' l' (zip4_lookup _ _ _ _ _ _ _ _ _ Hh Ha Hd Hl))
        as (kernel' & bias' & H0 & H1).
      exists kernel', bias'.
      split; apply lookup_app_l_Some; assumption.
  - destruct Hrun as (Hself & q & args & kwargs & Hout).
    right. exists e, q, args, kwargs. cbn [fst snd].
    split; [reflexivity|]. split; assumption.
Qed.

(** X10.  When the block returns, the four layers after the loop have taken
    their settings from the last iteration: the output [Dense] has
    [self.n_classes] units with the activation and the L2 strength of the
    last item, the [Dropout] after it has the rate of the last item,
    [PropConvolution] has got [self.K] as it is, whatever its sign, with the
    activation ['sigmoid'] and the same L2 strength, and [Gather] ends the
    chain. *)
Theorem build_graph_output_layers_reuse_last_item
    hs acts ds ls lr use_bias w dev na fx ix nc K :
  self w !! "device" = Some dev →
  self w !! "n_attrs" = Some (VInt na) →
  self w !! "floatx" = Some fx →
  self w !! "intx" = Some ix →
  self w !! "n_classes" = Some (VInt nc) →
  self w !! "K" = Some (VInt K) →
  (0 < Nat.min (Nat.min (length hs) (length acts))
               (Nat.min (length ds) (length ls)))%nat →
  fst (DAGNN.build_graph ext_fun init_kernel
         (VList (map VInt hs)) (VList (map VStr acts))
         (VList (map VFloat ds)) (VList (map VFloat ls)) lr use_bias w) = Ok tt →
  ∃ layers a d l kernel bias W b,
    self (snd (DAGNN.build_graph ext_fun init_kernel
                 (VList (map VInt hs)) (VList (map VStr acts))
                 (VList (map VFloat ds)) (VList (map VFloat ls)) lr use_bias w))
      !! "model" = Some (VModel (KerasModel na layers lr))
    ∧ acts !! (Nat.min (Nat.min (length hs) (length acts))
                       (Nat.min (length ds) (length ls)) - 1)%nat = Some a
    ∧ ds !! (Nat.min (Nat.min (length hs) (length acts))
                     (Nat.min (length ds) (length ls)) - 1)%nat = Some d
    ∧ ls !! (Nat.min (Nat.min (length hs) (length acts))
                     (Nat.min (length ds) (length ls)) - 1)%nat = Some l
    ∧ drop (2 * Nat.min (Nat.min (length hs) (length acts))
                        (Nat.min (length ds) (length ls))) layers
      = [ Dense nc use_bias a l kernel bias;
          Dropout d;
          PropConvolution K use_bias "sigmoid" l W b;
          Gather ].
Proof.
  intros Hdev Hna Hfx Hix Hnc HK Hn Hok.
  destruct (zip4_last hs acts ds ls Hn)
    as (hid & a & d & l & Hlast & _ & Ha & Hd & Hl).
  pose proof (build_graph_cases hs acts ds ls lr use_bias w dev na fx ix nc K
                hid a d l Hdev Hna Hfx Hix Hnc HK Hlast) as Hrun.
  destruct (DAGNN.build_graph ext_fun init_kernel _ _ _ _ lr use_bias w)
    as [[[]|e] w']; [|discriminate Hok].
  destruct Hrun as (enc & kernel & bias & W & Hself & Hlen & _).
  rewrite zip4_length in Hlen.
  eexists _, a, d, l, kernel, bias, W, 0%R. cbn [snd]. rewrite Hself.
  split; [apply lookup_insert_eq|]. repeat (split; [assumption|]).
  rewrite <- Hlen. rewrite drop_app_length. reflexivity.
Qed.

(** A collaborator that rejects a layer of the loop stops the block with its
    own exception, whatever the later layers are. *)
Lemma build_graph_first_layer_rejected
    hid a d l hs acts ds ls lr use_bias w dev na fx ix reg e :
  self w !! "device" = Some dev →
  self w !! "n_attrs" = Some (VInt na) →
  self w !! "floatx" = Some fx →
  self w !! "intx" = Some ix →
  ext_fun "tensorflow.keras.regularizers.l2" [VFloat l] [] = Ok reg →
  ext_fun "tensorflow.keras.layers.Dense" [VInt hid]
    [("use_bias", VBool use_bias); ("activation", VStr a);
     ("kernel_regularizer", reg)] = Raise e →
  fst (DAGNN.build_graph ext_fun init_kernel
         (VList (map VInt (hid :: hs))) (VList (map VStr (a :: acts)))
         (VList (map VFloat (d :: ds))) (VList (map VFloat (l :: ls)))
         lr use_bias w)
  = Raise e.
Proof.
  intros Hdev Hna Hfx Hix Hreg Hdense.
  build_graph_head dev na fx ix.
  cbn [DAGNN.zip4 DAGNN.encoder]. load "Dense".
  unfold DAGNN.l2_regularizer. rewrite bind_run. load "regularizers".
  rewrite ?bind_run, (call_run ext_fun), Hreg. cbv beta iota.
  unfold DAGNN.apply_new at 1.
  rewrite ?bind_run, (call_run ext_fun), Hdense. reflexivity.
Qed.

(** *** [train_sequence] and [predict] *)

Lemma take_in_range labels ix :
  Forall (λ i, (0 ≤ i < Z.of_nat (length labels))%Z) ix →
  ∃ sel, DAGNN.take labels ix = Ok sel
         ∧ length sel = length ix
         ∧ (∀ j i, ix !! j = Some i → sel !! j = labels !! Z.to_nat i).
Proof.
  induction 1 as [|i ix Hi _ (sel & Heq & Hlen & Hsel)].
  - exists []. split; [reflexivity|]. split; [reflexivity|].
    intros j i Hj. discriminate Hj.
  - cbn [DAGNN.take].
    assert (((- Z.of_nat (length labels) <=? i)
             && (i <? Z.of_nat (length labels)))%Z = true) as ->.
    { apply andb_true_intro. split; [apply Z.leb_le | apply Z.ltb_lt]; lia. }
    rewrite Z.mod_small by lia.
    destruct (lookup_lt_is_Some_2 labels (Z.to_nat i)) as [v Hv]; [lia|].
    rewrite Hv, Heq. exists (v :: sel).
    split; [reflexivity|]. split; [cbn; lia|].
    intros [|j] i' Hj; cbn in Hj |- *.
    + injection Hj as <-. symmetry. exact Hv.
    + apply Hsel. exact Hj.
Qed.

Lemma take_out_of_range labels ix i :
  i ∈ ix →
  (i < - Z.of_nat (length labels) ∨ Z.of_nat (length labels) ≤ i)%Z →
  DAGNN.take labels ix = Raise IndexError.
Proof.
  intros Hin Hout. induction ix as [|i' ix IH]; [inversion Hin|].
  cbn [DAGNN.take].
  destruct ((- Z.of_nat (length labels) <=? i')
            && (i' <? Z.of_nat (length labels)))%Z eqn:Hrange; [|reflexivity].
  apply elem_of_cons in Hin as [<- | Hin].
  - apply andb_prop in Hrange as [H1 H2].
    apply Z.leb_le in H1. apply Z.ltb_lt in H2. lia.
  - rewrite (IH Hin). destruct (labels !! _); reflexivity.
Qed.

Lemma getitem_run labels ix w :
  DAGNN.getitem (VIndex labels) (VIndex ix) w =
  match DAGNN.take labels ix with
  | Ok vs => (Ok (VIndex vs), w)
  | Raise e => (Raise e, w)
  end.
Proof. unfold DAGNN.getitem. destruct (DAGNN.take labels ix); reflexivity. Qed.

(** X11.  [train_sequence] assigns nothing: whatever it returns or raises,
    [self] after the call is [self] before it. *)
Theorem train_sequence_assigns_nothing index w :
  self (snd (DAGNN.train_sequence ext_fun index w)) = self w.
Proof. revert w. unfold DAGNN.train_sequence. keeps. Qed.

(** X12.  [train_sequence] hands [FullBatchNodeSequence] the tensors stored
    by [preprocess], the converted index, and one label per index in the
    order of the index (position [j] holds the label of node [index[j]], so
    a repeated node repeats its label), and returns what the constructor
    returns. *)
Theorem train_sequence_labels_follow_index
    index w ix labels dev xn an :
  ext_fun "graphgallery.asintarr" [index] [] = Ok (VIndex ix) →
  self w !! "labels" = Some (VIndex labels) →
  Forall (λ i, (0 ≤ i < Z.of_nat (length labels))%Z) ix →
  self w !! "device" = Some dev →
  self w !! "x_norm" = Some xn →
  self w !! "adj_norm" = Some an →
  ∃ sel,
    length sel = length ix
    ∧ (∀ j i, ix !! j = Some i → sel !! j = labels !! Z.to_nat i)
    ∧ fst (DAGNN.train_sequence ext_fun index w)
      = ext_fun "graphgallery.sequence.FullBatchNodeSequence"
          [VList [xn; an; VIndex ix]; VIndex sel] [].
Proof.
  intros Hidx Hlabels Hrange Hdev Hxn Han.
  destruct (take_in_range labels ix Hrange) as (sel & Htake & Hlen & Hsel).
  exists sel. split; [exact Hlen|]. split; [exact Hsel|].
  unfold DAGNN.train_sequence.
  load "asintarr". rewrite bind_run, (call_run ext_fun), Hidx. cbn [self trace].
  attr "labels" (VIndex labels).
  rewrite bind_run, getitem_run, Htake. cbv beta iota.
  load "tf". attr "device" dev. step_log.
  load "FullBatchNodeSequence". attr "x_norm" xn. attr "adj_norm" an.
  rewrite bind_run, (call_run ext_fun).
  destruct (ext_fun "graphgallery.sequence.FullBatchNodeSequence" _ _);
    reflexivity.
Qed.

(** X13.  An index outside [-n, n) for [n] labels makes [train_sequence]
    raise [IndexError] at line 110, before [FullBatchNodeSequence] is
    called. *)
Theorem train_sequence_index_out_of_range index w ix labels i :
  ext_fun "graphgallery.asintarr" [index] [] = Ok (VIndex ix) →
  self w !! "labels" = Some (VIndex labels) →
  i ∈ ix →
  (i < - Z.of_nat (length labels) ∨ Z.of_nat (length labels) ≤ i)%Z →
  fst (DAGNN.train_sequence ext_fun index w) = Raise IndexError
  ∧ (∀ args,
       ECall "graphgallery.sequence.FullBatchNodeSequence" args
         ∈ trace (snd (DAGNN.train_sequence ext_fun index w)) →
       ECall "graphgallery.sequence.FullBatchNodeSequence" args ∈ trace w).
Proof.
  intros Hidx Hlabels Hin Hout.
  unfold DAGNN.train_sequence.
  load "asintarr". rewrite bind_run, (call_run ext_fun), Hidx. cbn [self trace].
  attr "labels" (VIndex labels).
  rewrite bind_run, getitem_run, (take_out_of_range labels ix i Hin Hout).
  cbv beta iota. cbn [fst snd trace].
  split; [reflexivity|]. intros args Hargs.
  apply elem_of_app in Hargs as [Hargs|Hargs]; [exact Hargs|].
  apply list_elem_of_singleton in Hargs. discriminate Hargs.
Qed.

(** X14.  When [self.model] holds anything but a Keras model ([None], say,
    because no model was ever compiled), [predict] raises [AttributeError]
    for [predict_on_batch] once the check of the base class and the two
    conversions of the index have passed, and before [self.x_norm] and
    [self.adj_norm] are read. *)
Theorem predict_without_model index w r d i1 dev i2 mo :
  ext_method "predict" [index] [] (self w) = (Ok r, d) →
  ext_fun "graphgallery.asintarr" [index] [] = Ok i1 →
  d !! "device" = Some dev →
  ext_fun "graphgallery.astensors" [i1] [] = Ok i2 →
  d !! "model" = Some mo →
  (∀ m, mo ≠ VModel m) →
  fst (DAGNN.predict ext_fun ext_method index w)
  = Raise (AttributeError "predict_on_batch").
Proof.
  intros Hbase Hi1 Hdev Hi2 Hmo Hnot.
  unfold DAGNN.predict.
  rewrite bind_run, (call_super_run ext_method), Hbase. cbn [fst snd].
  load "asintarr". rewrite bind_run, (call_run ext_fun), Hi1. cbn [self trace].
  load "tf". attr "device" dev. step_log.
  load "astensors". rewrite bind_run, (call_run ext_fun), Hi2. cbn [self trace].
  attr "model" mo. rewrite bind_run. unfold DAGNN.predict_on_batch_of at 1.
  destruct mo; try reflexivity. exfalso. eapply Hnot. reflexivity.
Qed.

(** X15.  [build] has no effect on prediction: [predict] called after
    [build] returns or raises what it would have without the call to
    [build], because [build] leaves [self] as it found it. *)
Theorem build_then_predict
    hiddens activations dropouts l2_norms lr use_bias index w :
  fst (DAGNN.predict ext_fun ext_method index
         (snd (DAGNN.build ext_fun init_kernel
                 hiddens activations dropouts l2_norms lr use_bias w)))
  = fst (DAGNN.predict ext_fun ext_method index w).
Proof.
  destruct (predict_reads ext_fun ext_method) as [F HF]. rewrite !HF.
  rewrite build_run.
  destruct (ext_fun "graphgallery.Bunch" _ _); reflexivity.
Qed.

End Coverage.

(** ** The further properties on concrete inputs *)

Lemma init_base_failure_propagates_witness :
  fst (DAGNN.__init__ Sample.ext_fun Fixture.broken_base
         Sample.graph (VFloat (-0.5)%float) VNone (VInt 10)
         (VStr "cpu:0") VNone VNone [] Sample.fresh)
  = Raise (ExternalError "__init__")
  ∧ self (snd (DAGNN.__init__ Sample.ext_fun Fixture.broken_base
                 Sample.graph (VFloat (-0.5)%float) VNone (VInt 10)
                 (VStr "cpu:0") VNone VNone [] Sample.fresh)) = ∅.
Proof.
  apply (init_base_failure_propagates Sample.ext_fun Fixture.broken_base
           Sample.graph (VFloat (-0.5)%float) VNone (VInt 10)
           (VStr "cpu:0") VNone VNone [] Sample.fresh).
  reflexivity.
Defined.

Lemma init_never_preprocesses_witness :
  self (snd (DAGNN.__init__ Sample.ext_fun Sample.ext_method
               Sample.graph (VFloat (-0.5)%float) (VStr "l1") (VInt 10)
               (VStr "cpu:0") VNone VNone [] Sample.fresh)) !! "norm_adj"
  = Some (VFloat (-0.5)%float)
  ∧ self (snd (DAGNN.__init__ Sample.ext_fun Sample.ext_method
                 Sample.graph (VFloat (-0.5)%float) (VStr "l1") (VInt 10)
                 (VStr "cpu:0") VNone VNone [] Sample.fresh)) !! "norm_x"
    = Some (VStr "l1").
Proof.
  apply (proj2 (proj2 (init_never_preprocesses Sample.ext_fun Sample.ext_method
                         Sample.graph (VFloat (-0.5)%float) (VStr "l1") (VInt 10)
                         (VStr "cpu:0") VNone VNone [] Sample.fresh)) VNone).
  reflexivity.
Defined.

Lemma preprocess_failure_assigns_nothing_witness :
  self (snd (DAGNN.preprocess Sample.ext_fun Sample.ext_method
               (VMatrix Layers.eye2) (VMatrix Sample.features) Sample.fresh))
  = snd (Sample.ext_method "preprocess"
           [VMatrix Layers.eye2; VMatrix Sample.features] [] (self Sample.fresh)).
Proof.
  apply (preprocess_failure_assigns_nothing Sample.ext_fun Sample.ext_method
           (VMatrix Layers.eye2) (VMatrix Sample.features) Sample.fresh
           (AttributeError "norm_adj")).
  reflexivity.
Defined.

Lemma preprocess_assigns_only_x_norm_and_adj_norm_witness :
  is_Some (self (snd (DAGNN.preprocess Sample.ext_fun Sample.ext_method
                        (VMatrix Layers.eye2) (VMatrix Sample.features)
                        (Sample.configured (VFloat (-0.5)%float) VNone)))
             !! "x_norm")
  ∧ is_Some (self (snd (DAGNN.preprocess Sample.ext_fun Sample.ext_method
                          (VMatrix Layers.eye2) (VMatrix Sample.features)
                          (Sample.configured (VFloat (-0.5)%float) VNone)))
               !! "adj_norm")
  ∧ (∀ attr, attr ≠ "x_norm" → attr ≠ "adj_norm" →
       self (snd (DAGNN.preprocess Sample.ext_fun Sample.ext_method
                    (VMatrix Layers.eye2) (VMatrix Sample.features)
                    (Sample.configured (VFloat (-0.5)%float) VNone))) !! attr
       = snd (Sample.ext_method "preprocess"
                [VMatrix Layers.eye2; VMatrix Sample.features] []
                (self (Sample.configured (VFloat (-0.5)%float) VNone))) !! attr).
Proof.
  apply (preprocess_assigns_only_x_norm_and_adj_norm
           Sample.ext_fun Sample.ext_method
           (VMatrix Layers.eye2) (VMatrix Sample.features)
           (Sample.configured (VFloat (-0.5)%float) VNone) tt).
  reflexivity.
Defined.

Lemma preprocess_truthy_norm_adj_normalizes_witness :
  fst (DAGNN.preprocess Sample.ext_fun Sample.ext_method
         (VMatrix Layers.eye2) (VMatrix Sample.features)
         (Sample.configured (VFloat (-0.5)%float) VNone)) = Ok tt
  ∧ self (snd (DAGNN.preprocess Sample.ext_fun Sample.ext_method
                 (VMatrix Layers.eye2) (VMatrix Sample.features)
                 (Sample.configured (VFloat (-0.5)%float) VNone))) !! "adj_norm"
    = Some (VObject "normalized_adj" [VMatrix Layers.eye2; VFloat (-0.5)%float])
  ∧ trace (snd (DAGNN.preprocess Sample.ext_fun Sample.ext_method
                  (VMatrix Layers.eye2) (VMatrix Sample.features)
                  (Sample.configured (VFloat (-0.5)%float) VNone)))
    = trace (Sample.configured (VFloat (-0.5)%float) VNone)
      ++ [ECall "SemiSupervisedModel.preprocess"
            [VMatrix Layers.eye2; VMatrix Sample.features];
          ECall "graphgallery.normalize_adj"
            [VMatrix Layers.eye2; VFloat (-0.5)%float]]
      ++ (if truthy VNone
          then [ECall "graphgallery.normalize_x" [VMatrix Sample.features]]
          else [])
      ++ [ECall "tensorflow.device" [VStr "cpu:0"];
          ECall "graphgallery.astensors"
            [VList [VMatrix Sample.features;
                    VObject "normalized_adj"
                      [VMatrix Layers.eye2; VFloat (-0.5)%float]]]].
Proof.
  apply (preprocess_truthy_norm_adj_normalizes Sample.ext_fun Sample.ext_method
           (VMatrix Layers.eye2) (VMatrix Sample.features)
           (Sample.configured (VFloat (-0.5)%float) VNone)
           VNone
           (<["x" := VMatrix Sample.features]>
              (<["adj" := VMatrix Layers.eye2]>
                 (self (Sample.configured (VFloat (-0.5)%float) VNone))))
           (VMatrix Layers.eye2) (VMatrix Sample.features)
           (VFloat (-0.5)%float) VNone
           (VObject "normalized_adj" [VMatrix Layers.eye2; VFloat (-0.5)%float])
           (VMatrix Sample.features) (VStr "cpu:0")
           (VMatrix Sample.features)
           (VObject "normalized_adj" [VMatrix Layers.eye2; VFloat (-0.5)%float]));
    reflexivity.
Defined.

Lemma preprocess_falsy_norm_x_keeps_features_witness :
  fst (DAGNN.preprocess Sample.ext_fun Sample.ext_method
         (VMatrix Layers.eye2) (VMatrix Sample.features)
         (Sample.configured (VFloat (-0.5)%float) VNone)) = Ok tt
  ∧ self (snd (DAGNN.preprocess Sample.ext_fun Sample.ext_method
                 (VMatrix Layers.eye2) (VMatrix Sample.features)
                 (Sample.configured (VFloat (-0.5)%float) VNone))) !! "x_norm"
    = Some (VMatrix Sample.features)
  ∧ (∀ args,
       ECall "graphgallery.normalize_x" args
         ∈ trace (snd (DAGNN.preprocess Sample.ext_fun Sample.ext_method
                         (VMatrix Layers.eye2) (VMatrix Sample.features)
                         (Sample.configured (VFloat (-0.5)%float) VNone))) →
       ECall "graphgallery.normalize_x" args
         ∈ trace (Sample.configured (VFloat (-0.5)%float) VNone)).
Proof.
  apply (preprocess_falsy_norm_x_keeps_features Sample.ext_fun Sample.ext_method
           (VMatrix Layers.eye2) (VMatrix Sample.features)
           (Sample.configured (VFloat (-0.5)%float) VNone)
           VNone
           (<["x" := VMatrix Sample.features]>
              (<["adj" := VMatrix Layers.eye2]>
                 (self (Sample.configured (VFloat (-0.5)%float) VNone))))
           (VMatrix Layers.eye2) (VMatrix Sample.features)
           (VFloat (-0.5)%float) VNone
           (VObject "normalized_adj" [VMatrix Layers.eye2; VFloat (-0.5)%float])
           (VStr "cpu:0")
           (VMatrix Sample.features)
           (VObject "normalized_adj" [VMatrix Layers.eye2; VFloat (-0.5)%float]));
    reflexivity.
Defined.

Lemma build_graph_empty_configuration_witness :
  fst (DAGNN.build_graph Fixture.keras Sample.init_kernel
         (VList (map VInt [])) (VList (map VStr ["relu"]))
         (VList (map VFloat [0.5%float])) (VList (map VFloat [Sample.l2_default]))
         Sample.lr_default false (Fixture.sized 10))
  = Raise (UnboundLocalError "activation")
  ∧ self (snd (DAGNN.build_graph Fixture.keras Sample.init_kernel
                 (VList (map VInt [])) (VList (map VStr ["relu"]))
                 (VList (map VFloat [0.5%float]))
                 (VList (map VFloat [Sample.l2_default]))
                 Sample.lr_default false (Fixture.sized 10)))
    = self (Fixture.sized 10).
Proof.
  apply (build_graph_empty_configuration Fixture.keras Sample.init_kernel
           [] ["relu"] [0.5%float] [Sample.l2_default] Sample.lr_default false
           (Fixture.sized 10) (VStr "cpu:0") 2 (VStr "float32") (VStr "int32")
           (VInt 3)); try reflexivity.
  left. reflexivity.
Defined.

Lemma build_graph_truncates_to_shortest_witness :
  ∃ layers,
    fst (DAGNN.build_graph Fixture.keras Sample.init_kernel
           (VList (map VInt [64; 32]%Z)) (VList (map VStr ["relu"]))
           (VList (map VFloat [0.5%float; 0.5%float; 0.5%float]))
           (VList (map VFloat [Sample.l2_default]))
           Sample.lr_default false (Fixture.sized 10)) = Ok tt
    ∧ self (snd (DAGNN.build_graph Fixture.keras Sample.init_kernel
                   (VList (map VInt [64; 32]%Z)) (VList (map VStr ["relu"]))
                   (VList (map VFloat [0.5%float; 0.5%float; 0.5%float]))
                   (VList (map VFloat [Sample.l2_default]))
                   Sample.lr_default false (Fixture.sized 10)))
      = <["model" := VModel (KerasModel 2 layers Sample.lr_default)]>
          (self (Fixture.sized 10))
    ∧ length layers = 6%nat.
Proof.
  destruct (build_graph_truncates_to_shortest Fixture.keras Sample.init_kernel
              [64; 32]%Z ["relu"] [0.5%float; 0.5%float; 0.5%float]
              [Sample.l2_default] Sample.lr_default false
              (Fixture.sized 10) (VStr "cpu:0") 2 (VStr "float32") (VStr "int32")
              3 10 eq_refl eq_refl eq_refl eq_refl eq_refl eq_refl
              (Nat.lt_0_succ 0))
    as [(layers & Hok & Hself & Hlen & _) | (e & q & args & kwargs & Hraise & _)].
  - exists layers. split; [exact Hok|]. split; [exact Hself|exact Hlen].
  - vm_compute in Hraise. discriminate Hraise.
Defined.

Lemma build_graph_output_layers_reuse_last_item_witness :
  ∃ layers kernel bias W b,
    self (snd (DAGNN.build_graph Fixture.keras Sample.init_kernel
                 (VList (map VInt [64; 32]%Z)) (VList (map VStr ["relu"; "tanh"]))
                 (VList (map VFloat [0.5%float; 0.25%float]))
                 (VList (map VFloat [Sample.l2_default; Sample.l2_default]))
                 Sample.lr_default false (Fixture.sized (-4))))
      !! "model" = Some (VModel (KerasModel 2 layers Sample.lr_default))
    ∧ drop 4 layers
      = [ Dense 3 false "tanh" Sample.l2_default kernel bias;
          Dropout 0.25%float;
          PropConvolution (-4) false "sigmoid" Sample.l2_default W b;
          Gather ].
Proof.
  destruct (build_graph_output_layers_reuse_last_item
              Fixture.keras Sample.init_kernel
              [64; 32]%Z ["relu"; "tanh"] [0.5%float; 0.25%float]
              [Sample.l2_default; Sample.l2_default] Sample.lr_default false
              (Fixture.sized (-4)) (VStr "cpu:0") 2 (VStr "float32")
              (VStr "int32") 3 (-4) eq_refl eq_refl eq_refl eq_refl eq_refl
              eq_refl (Nat.lt_0_succ 1))
    as (layers & a & d & l & kernel & bias & W & b
        & Hmodel & Ha & Hd & Hl & Hdrop).
  - vm_compute. reflexivity.
  - cbn in Ha, Hd, Hl.
    injection Ha as <-. injection Hd as <-. injection Hl as <-.
    exists layers, kernel, bias, W, b. split; [exact Hmodel|exact Hdrop].
Defined.

(** The block passes an exception of a Keras constructor on: an activation
    name that [Dense] does not know, and a dropout rate outside [0, 1]. *)
Example build_graph_unknown_activation :
  DAGNN.build_graph Fixture.keras Sample.init_kernel
    (VList (map VInt [64]%Z)) (VList (map VStr ["bogus"]))
    (VList (map VFloat [0.5%float])) (VList (map VFloat [Sample.l2_default]))
    Sample.lr_default false (Fixture.sized 10)
  = (Raise (ValueError "activation"),
     World (self (Fixture.sized 10))
       [ ECall "tensorflow.device" [VStr "cpu:0"];
         ENew "Input"; ENew "Input"; ENew "Input";
         ECall "tensorflow.keras.regularizers.l2" [VFloat Sample.l2_default];
         ECall "tensorflow.keras.layers.Dense" [VInt 64] ]).
Proof. vm_compute. reflexivity. Qed.

Example build_graph_invalid_dropout_rate :
  fst (DAGNN.build_graph Fixture.keras Sample.init_kernel
         (VList (map VInt [64]%Z)) (VList (map VStr ["relu"]))
         (VList (map VFloat [7.5%float])) (VList (map VFloat [Sample.l2_default]))
         Sample.lr_default false (Fixture.sized 10))
  = Raise (ValueError "rate").
Proof. vm_compute. reflexivity. Qed.

Lemma train_sequence_labels_follow_index_witness :
  ∃ sel,
    length sel = 3%nat
    ∧ (∀ j i, [1; 1; 0]%Z !! j = Some i → sel !! j = [2; 0; 1]%Z !! Z.to_nat i)
    ∧ fst (DAGNN.train_sequence Fixture.ext_fun (VIndex [1; 1; 0]%Z)
             Fixture.prepared)
      = Fixture.ext_fun "graphgallery.sequence.FullBatchNodeSequence"
          [VList [VMatrix Sample.features; VMatrix Layers.eye2;
                  VIndex [1; 1; 0]%Z];
           VIndex sel] [].
Proof.
  apply (train_sequence_labels_follow_index Fixture.ext_fun
           (VIndex [1; 1; 0]%Z) Fixture.prepared [1; 1; 0]%Z [2; 0; 1]%Z
           (VStr "cpu:0") (VMatrix Sample.features) (VMatrix Layers.eye2));
    try reflexivity.
  repeat constructor; cbn; lia.
Defined.

Lemma train_sequence_index_out_of_range_witness :
  fst (DAGNN.train_sequence Fixture.ext_fun (VIndex [0; 3]%Z) Fixture.prepared)
  = Raise IndexError
  ∧ (∀ args,
       ECall "graphgallery.sequence.FullBatchNodeSequence" args
         ∈ trace (snd (DAGNN.train_sequence Fixture.ext_fun (VIndex [0; 3]%Z)
                         Fixture.prepared)) →
       ECall "graphgallery.sequence.FullBatchNodeSequence" args
         ∈ trace Fixture.prepared).
Proof.
  apply (train_sequence_index_out_of_range Fixture.ext_fun
           (VIndex [0; 3]%Z) Fixture.prepared [0; 3]%Z [2; 0; 1]%Z 3%Z).
  - reflexivity.
  - reflexivity.
  - apply list_elem_of_In. cbn. right. left. reflexivity.
  - right. cbn. lia.
Defined.

Lemma predict_without_model_witness :
  fst (DAGNN.predict Sample.ext_fun Fixture.ext_method (VIndex [0%Z])
         Fixture.unbuilt)
  = Raise (AttributeError "predict_on_batch").
Proof.
  apply (predict_without_model Sample.ext_fun Fixture.ext_method
           (VIndex [0%Z]) Fixture.unbuilt VNone (self Fixture.unbuilt)
           (VIndex [0%Z]) (VStr "cpu:0") (VIndex [0%Z]) VNone);
    try reflexivity.
  intros m Hm. discriminate Hm.
Defined.

Lemma predict_twice_witness :
  fst (DAGNN.predict Sample.ext_fun Sample.ext_method (VIndex [1; 0]%Z)
         (snd (DAGNN.predict Sample.ext_fun Sample.ext_method (VIndex [1; 0]%Z)
                 Sample.compiled)))
  = fst (DAGNN.predict Sample.ext_fun Sample.ext_method (VIndex [1; 0]%Z)
           Sample.compiled).
Proof.
  apply (predict_twice Sample.ext_fun Sample.ext_method
           (VIndex [1; 0]%Z) Sample.compiled).
  intros d. unfold Sample.ext_method. cbn.
  destruct (d !! "model") as [[]|]; reflexivity.
Defined.

Example take_counts_from_the_end :
  DAGNN.take [2; 0; 1]%Z [-1; 0; -3]%Z = Ok [1; 2; 2]%Z.
Proof. reflexivity. Qed.
